(** * Case-Tracker: the appointment editor, the calendar view and the
      document store, list, upload and preview

    A shallow embedding of the decision logic of the React components

      - [AppointmentForm]  (calendar/AppointmentForm.tsx)
      - [CalendarView]     (calendar/CalendarView.tsx)
      - [DocumentContex]   (documents/DocumentContex.tsx)
      - [DocumentList]     (documents/DocumentList.tsx)
      - [DocumentUpload]   (documents/DocumentUpload.tsx)
      - [DocumentPreview]  (documents/DocumentPreview.tsx)

    Component state ([useState]) is a record, an event handler is a
    function from the state before the event to the state after it, and
    a call of a callback prop is an entry of a call log returned next to
    the new state.  The file has two parts: the embedding, then the
    properties. *)

From Stdlib Require Import ZArith Bool Ascii String List Permutation Sorted Floats.
From stdpp Require Import gmap strings list fin_maps pretty.

Set Warnings "-inexact-float".
Local Open Scope Z_scope.
Local Open Scope string_scope.

(* ===================================================================== *)
(** * Part I: the embedding                                               *)
(* ===================================================================== *)

(** ** The JavaScript primitives the components call *)

Module JS.

(** A string is a sequence of code units; the model keeps the code
    units U+0000..U+00FF, one [ascii] each. *)

(** [WhiteSpace] and [LineTerminator] code units below U+0100: TAB, LF,
    VT, FF, CR, SP and NBSP. *)
Definition isWhiteSpace (c : ascii) : bool :=
  let n := N_of_ascii c in
  ((9 <=? n) && (n <=? 13) || (n =? 32) || (n =? 160))%N.

(** [String.prototype.trimStart] *)
Fixpoint trimStart (s : string) : string :=
  match s with
  | EmptyString => EmptyString
  | String c s' => if isWhiteSpace c then trimStart s' else s
  end.

(** [String.prototype.trimEnd] *)
Fixpoint trimEnd (s : string) : string :=
  match s with
  | EmptyString => EmptyString
  | String c s' =>
      match trimEnd s' with
      | EmptyString => if isWhiteSpace c then EmptyString else String c EmptyString
      | t => String c t
      end
  end.

(** [String.prototype.trim] *)
Definition trim (s : string) : string := trimEnd (trimStart s).

(** [ToBoolean] on a string: only the empty string is falsy. *)
Definition truthy (s : string) : bool :=
  match s with EmptyString => false | String _ _ => true end.

(** [s.includes(t)]: [t] occurs in [s] at some position. *)
Fixpoint includes (s t : string) : bool :=
  String.prefix t s ||
  match s with
  | EmptyString => false
  | String _ s' => includes s' t
  end.

(** [s.split(',')], written for a one-character separator: the pieces
    between the separators, one piece more than there are separators,
    so the empty string splits into one empty piece. *)
Fixpoint split (sep : ascii) (s : string) : list string :=
  match s with
  | EmptyString => [EmptyString]
  | String c s' =>
      if Ascii.eqb c sep then EmptyString :: split sep s'
      else match split sep s' with
           | [] => [String c EmptyString]
           | p :: ps => String c p :: ps
           end
  end.

(** A [Date] is its time value: milliseconds since the epoch, or NaN
    for an Invalid Date ([None]). *)
Definition Date : Type := option Z.

(** [a >= b] on two dates: both are converted to their time values and
    a comparison with NaN is false. *)
Definition Date_ge (a b : Date) : bool :=
  match a, b with
  | Some x, Some y => (y <=? x)%Z
  | _, _ => false
  end.

(** [a > b] on two dates. *)
Definition Date_gt (a b : Date) : bool :=
  match a, b with
  | Some x, Some y => (y <? x)%Z
  | _, _ => false
  end.

(** A [Number] that is an integer or NaN ([None]). *)
Definition Number : Type := option Z.

(** [a - b] on numbers: NaN if either is NaN. *)
Definition Number_sub (a b : Number) : Number :=
  match a, b with
  | Some x, Some y => Some (x - y)
  | _, _ => None
  end.

(** unary minus *)
Definition Number_neg (a : Number) : Number := option_map Z.opp a.

Section Sort.
Context {A : Type}.

(** [SortCompare]: the comparator's result, with NaN read as +0. *)
Definition SortCompare (comparefn : A -> A -> Number) (x y : A) : Z :=
  match comparefn x y with
  | Some v => v
  | None => 0
  end.

Fixpoint sort_insert (comparefn : A -> A -> Number) (x : A) (l : list A) : list A :=
  match l with
  | [] => [x]
  | y :: l' =>
      if (SortCompare comparefn x y <=? 0)%Z then x :: y :: l'
      else y :: sort_insert comparefn x l'
  end.

(** [Array.prototype.sort(comparefn)].  The standard asks for a
    stable sort and fixes its result when [comparefn] is a
    consistent comparator; this is the stable insertion sort, which
    is that result. *)
Fixpoint sort (comparefn : A -> A -> Number) (l : list A) : list A :=
  match l with
  | [] => []
  | x :: l' => sort_insert comparefn x (sort comparefn l')
  end.
End Sort.

(** The primitives whose result is left to the host: the Unicode case
    mapping, the locale's collation and the date parser.  The laws are
    the ones the standard states: lower-casing keeps the empty string,
    and [localeCompare] is a consistent comparator on all strings. *)
Class Platform := {
  toLowerCase : string -> string;
  localeCompare : string -> string -> Z;
  Date_parse : string -> Date;
  toLowerCase_empty : toLowerCase "" = "";
  localeCompare_antisym : forall a b,
    Z.sgn (localeCompare b a) = (- Z.sgn (localeCompare a b))%Z;
  localeCompare_trans : forall a b c,
    (localeCompare a b <= 0)%Z -> (localeCompare b c <= 0)%Z ->
    (localeCompare a c <= 0)%Z
}.

End JS.

(** ** calendar/CalendarView.tsx: the [Appointment] record *)

(** [type] and [reminder] are unions of string literals in the source;
    at run time they are the strings a [<select>] delivers. *)
Record Appointment := mkAppointment {
  apt_id : string;
  apt_title : string;
  apt_start : JS.Date;
  apt_end : JS.Date;
  apt_type : string;
  apt_client : option string;
  apt_caseReference : option string;
  apt_location : option string;
  apt_notes : option string;
  apt_reminder : option string
}.

Record Slot := mkSlot { slot_start : JS.Date; slot_end : JS.Date }.

(** ** calendar/AppointmentForm.tsx *)

Module AppointmentForm.

(** [Omit<Appointment, 'id'>], the draft. *)
Record FormData := mkFormData {
  title : string;
  start : JS.Date;
  end_ : JS.Date;
  type : string;
  client : string;
  caseReference : string;
  location : string;
  notes : string;
  reminder : string
}.

(** The props that are data; the callbacks [onSave], [onDelete] and
    [onClose] are the constructors of [Call]. *)
Record Props := mkProps {
  appointment : option Appointment;
  initialSlot : option Slot
}.

Inductive Call :=
| onSave (a : Appointment)
| onDelete (id : string)
| onClose.

Record State := mkState {
  formData : FormData;
  errors : gmap string string
}.

(** [useState] initial values; [now1] and [now2] are the two readings
    of the clock the two [new Date()] take at mount, one for [start] and
    one for [end]. *)
Definition initialState (now1 now2 : Z) : State :=
  {| formData := {| title := ""; start := Some now1; end_ := Some now2;
                    type := "appointment"; client := ""; caseReference := "";
                    location := ""; notes := ""; reminder := "1hour" |};
     errors := ∅ |}.

(** [x || ''] on an optional string *)
Definition orEmpty (x : option string) : string :=
  match x with
  | Some s => s
  | None => ""
  end.

(** [x || '1hour'] *)
Definition orDefault (d : string) (x : option string) : string :=
  match x with
  | Some s => if JS.truthy s then s else d
  | None => d
  end.

(** The [useEffect] that seeds the draft. *)
Definition seed (p : Props) (st : State) : State :=
  match appointment p with
  | Some a =>
      {| formData := {| title := apt_title a; start := apt_start a; end_ := apt_end a;
                        type := apt_type a;
                        client := orEmpty (apt_client a);
                        caseReference := orEmpty (apt_caseReference a);
                        location := orEmpty (apt_location a);
                        notes := orEmpty (apt_notes a);
                        reminder := orDefault "1hour" (apt_reminder a) |};
         errors := errors st |}
  | None =>
      match initialSlot p with
      | Some sl =>
          let prev := formData st in
          {| formData := {| title := title prev; start := slot_start sl; end_ := slot_end sl;
                            type := type prev; client := client prev;
                            caseReference := caseReference prev; location := location prev;
                            notes := notes prev; reminder := reminder prev |};
             errors := errors st |}
      | None => st
      end
  end.

(** The [name] attribute of the nine inputs [handleInputChange] is
    attached to. *)
Inductive Field :=
| f_title | f_type | f_start | f_end | f_client
| f_caseReference | f_location | f_reminder | f_notes.

Definition fieldName (f : Field) : string :=
  match f with
  | f_title => "title" | f_type => "type" | f_start => "start" | f_end => "end"
  | f_client => "client" | f_caseReference => "caseReference"
  | f_location => "location" | f_reminder => "reminder" | f_notes => "notes"
  end.

(** [{...prev, [name]: v}] on the draft *)
Definition setField `{platform : JS.Platform} (f : Field) (value : string) (prev : FormData) : FormData :=
  let mk t s e ty c cr l n r :=
    {| title := t; start := s; end_ := e; type := ty; client := c;
       caseReference := cr; location := l; notes := n; reminder := r |} in
  let '(mkFormData t s e ty c cr l n r) := prev in
  match f with
  | f_title => mk value s e ty c cr l n r
  | f_type => mk t s e value c cr l n r
  | f_start => mk t (JS.Date_parse value) e ty c cr l n r
  | f_end => mk t s (JS.Date_parse value) ty c cr l n r
  | f_client => mk t s e ty value cr l n r
  | f_caseReference => mk t s e ty c value l n r
  | f_location => mk t s e ty c cr value n r
  | f_reminder => mk t s e ty c cr l n value
  | f_notes => mk t s e ty c cr l value r
  end.

(** [errors[name]] as a condition: the key is there with a non-empty
    message. *)
Definition hasError (errs : gmap string string) (name : string) : bool :=
  match errs !! name with
  | Some msg => JS.truthy msg
  | None => false
  end.

Definition handleInputChange `{platform : JS.Platform} (f : Field) (value : string) (st : State) : State :=
  let name := fieldName f in
  {| formData := setField f value (formData st);
     errors := if hasError (errors st) name
               then <[name := ""]> (errors st)
               else errors st |}.

(** [validate]: the new error map and the returned flag. *)
Definition newErrors (fd : FormData) : gmap string string :=
  let e0 : gmap string string := ∅ in
  let e1 := if JS.truthy (JS.trim (title fd)) then e0
            else <["title" := "Title is required"]> e0 in
  let e2 := if JS.Date_ge (start fd) (end_ fd)
            then <["end" := "End time must be after start time"]> e1
            else e1 in
  e2.

Definition validate (st : State) : State * bool :=
  let ne := newErrors (formData st) in
  ({| formData := formData st; errors := ne |}, Nat.eqb (size ne) 0).

(** [`apt-${Date.now()}`] *)
Definition freshId (now : Z) : string := "apt-" +:+ pretty now.

(** [{ id: appointment?.id || `apt-${Date.now()}`, ...formData }] *)
Definition appointmentToSave (p : Props) (now : Z) (fd : FormData) : Appointment :=
  {| apt_id := match appointment p with
               | Some a => if JS.truthy (apt_id a) then apt_id a else freshId now
               | None => freshId now
               end;
     apt_title := title fd; apt_start := start fd; apt_end := end_ fd;
     apt_type := type fd;
     apt_client := Some (client fd);
     apt_caseReference := Some (caseReference fd);
     apt_location := Some (location fd);
     apt_notes := Some (notes fd);
     apt_reminder := Some (reminder fd) |}.

(** [handleSubmit]; [now] is the clock reading [Date.now()] would give. *)
Definition handleSubmit (p : Props) (now : Z) (st : State) : State * list Call :=
  let '(st', ok) := validate st in
  if negb ok then (st', [])
  else (st', [onSave (appointmentToSave p now (formData st'))]).

(** [handleDelete]; [confirmed] is the answer of [window.confirm]. *)
Definition handleDelete (p : Props) (confirmed : bool) : list Call :=
  match appointment p with
  | Some a => if confirmed then [onDelete (apt_id a)] else []
  | None => []
  end.

End AppointmentForm.

(** ** calendar/CalendarView.tsx *)

Module CalendarView.

Record State := mkState {
  showModal : bool;
  selectedAppointment : option Appointment;
  selectedSlot : option Slot;
  appointments : list Appointment
}.

Definition handleSelectSlot (slotInfo : Slot) (st : State) : State :=
  {| showModal := true; selectedAppointment := None;
     selectedSlot := Some slotInfo; appointments := appointments st |}.

Definition handleSelectEvent (event : Appointment) (st : State) : State :=
  {| showModal := true; selectedAppointment := Some event;
     selectedSlot := None; appointments := appointments st |}.

Definition handleSaveAppointment (appointment : Appointment) (st : State) : State :=
  {| showModal := false; selectedAppointment := None; selectedSlot := None;
     appointments :=
       match selectedAppointment st with
       | Some _ =>
           map (fun apt => if String.eqb (apt_id apt) (apt_id appointment)
                           then appointment else apt) (appointments st)
       | None => appointments st ++ [appointment]
       end |}.

Definition handleDeleteAppointment (id : string) (st : State) : State :=
  {| showModal := false; selectedAppointment := None;
     selectedSlot := selectedSlot st;
     appointments :=
       filter (fun apt => apt_id apt ≠ id) (appointments st) |}.

Definition handleCloseModal (st : State) : State :=
  {| showModal := false; selectedAppointment := None; selectedSlot := None;
     appointments := appointments st |}.

(** The props the view renders the editor with. *)
Definition formProps (st : State) : AppointmentForm.Props :=
  {| AppointmentForm.appointment := selectedAppointment st;
     AppointmentForm.initialSlot := selectedSlot st |}.

(** What the view does with a call the editor makes. *)
Definition dispatch (c : AppointmentForm.Call) (st : State) : State :=
  match c with
  | AppointmentForm.onSave a => handleSaveAppointment a st
  | AppointmentForm.onDelete id => handleDeleteAppointment id st
  | AppointmentForm.onClose => handleCloseModal st
  end.

End CalendarView.

(** ** documents/DocumentContex.tsx *)

Record Document := mkDocument {
  doc_id : string;
  doc_name : string;
  doc_type : string;
  doc_uploadDate : string;
  doc_uploader : string;
  doc_tags : option (list string);
  doc_clientCase : option string;
  doc_fileUrl : string;
  doc_fileSize : option Z
}.

Module DocumentContext.

(** The state of [DocumentProvider]; with the three operations below it
    is the value the provider hands to its descendants. *)
Record State := mkState {
  documents : list Document;
  selectedDocument : option Document
}.

Definition mockDocuments : list Document :=
  [ {| doc_id := "1"; doc_name := "Client Agreement - Smith v. Jones";
       doc_type := "pdf"; doc_uploadDate := "2024-10-15"; doc_uploader := "John Doe";
       doc_tags := Some ["Contract"; "Client"]; doc_clientCase := Some "Smith v. Jones";
       doc_fileUrl := "/mock/agreement.pdf"; doc_fileSize := Some 245000 |};
    {| doc_id := "2"; doc_name := "Evidence Photo - Crime Scene";
       doc_type := "image"; doc_uploadDate := "2024-10-20"; doc_uploader := "Jane Smith";
       doc_tags := Some ["Evidence"; "Criminal"]; doc_clientCase := Some "State v. Brown";
       doc_fileUrl := "https://via.placeholder.com/800x600/4A90E2/ffffff?text=Evidence+Photo";
       doc_fileSize := Some 1024000 |};
    {| doc_id := "3"; doc_name := "Motion to Dismiss - Case #2024-456";
       doc_type := "pdf"; doc_uploadDate := "2024-10-25"; doc_uploader := "John Doe";
       doc_tags := Some ["Motion"; "Court Filing"]; doc_clientCase := Some "Johnson Estate";
       doc_fileUrl := "/mock/motion.pdf"; doc_fileSize := Some 512000 |};
    {| doc_id := "4"; doc_name := "Witness Statement - Dr. Williams";
       doc_type := "pdf"; doc_uploadDate := "2024-10-28"; doc_uploader := "Sarah Johnson";
       doc_tags := Some ["Witness"; "Deposition"];
       doc_clientCase := Some "Medical Malpractice #789";
       doc_fileUrl := "/mock/statement.pdf"; doc_fileSize := Some 328000 |} ].

Definition initialState : State :=
  {| documents := mockDocuments; selectedDocument := None |}.

Definition addDocument (document : Document) (st : State) : State :=
  {| documents := document :: documents st;
     selectedDocument := selectedDocument st |}.

(** [selectedDocument?.id === id] *)
Definition selectedIs (sel : option Document) (id : string) : bool :=
  match sel with
  | Some d => String.eqb (doc_id d) id
  | None => false
  end.

Definition deleteDocument (id : string) (st : State) : State :=
  {| documents := filter (fun doc => doc_id doc ≠ id) (documents st);
     selectedDocument :=
       if selectedIs (selectedDocument st) id then None
       else selectedDocument st |}.

Definition setSelectedDocument (document : option Document) (st : State) : State :=
  {| documents := documents st; selectedDocument := document |}.

(** The ancestors of a component in the element tree, nearest first:
    a [DocumentProvider] with its current value, or any other element. *)
Inductive Ancestor :=
| DocumentProvider (value : State)
| Element.

(** [useContext(DocumentContext)]: the value of the nearest enclosing
    provider, or the default the context was created with,
    [undefined]. *)
Fixpoint useContext (ancestors : list Ancestor) : option State :=
  match ancestors with
  | [] => None
  | DocumentProvider value :: _ => Some value
  | Element :: rest => useContext rest
  end.

(** A call either returns or throws an [Error] with a message. *)
Inductive Outcome (A : Type) :=
| Return (a : A)
| Throw (message : string).
Arguments Return {A} a.
Arguments Throw {A} message.

Definition useDocuments (ancestors : list Ancestor) : Outcome State :=
  match useContext ancestors with
  | None => Throw "useDocuments must be used within a DocumentProvider"
  | Some context => Return context
  end.

End DocumentContext.

(** ** documents/DocumentList.tsx *)

Module DocumentList.

Inductive SortKey := by_name | by_date | by_uploader.
Inductive SortOrder := asc | desc.

Record State := mkState {
  searchTerm : string;
  sortBy : SortKey;
  sortOrder : SortOrder;
  filterType : string
}.

Definition initialState : State :=
  {| searchTerm := ""; sortBy := by_date; sortOrder := desc; filterType := "all" |}.

Section Derivation.
Context `{platform : JS.Platform}.

(** [a.toLowerCase().includes(b.toLowerCase())] *)
Definition includesLower (a b : string) : bool :=
  JS.includes (JS.toLowerCase a) (JS.toLowerCase b).

(** The [||] chain; an absent [clientCase] makes the last operand
    [undefined], which is falsy. *)
Definition matchesSearch (searchTerm : string) (doc : Document) : bool :=
  includesLower (doc_name doc) searchTerm ||
  includesLower (doc_uploader doc) searchTerm ||
  match doc_clientCase doc with
  | Some c => includesLower c searchTerm
  | None => false
  end.

Definition matchesType (filterType : string) (doc : Document) : bool :=
  String.eqb filterType "all" || String.eqb (doc_type doc) filterType.

(** [new Date(s).getTime()] *)
Definition getTime (s : string) : JS.Number := JS.Date_parse s.

(** The [switch] of the comparator. *)
Definition comparison (sortBy : SortKey) (a b : Document) : JS.Number :=
  match sortBy with
  | by_name => Some (JS.localeCompare (doc_name a) (doc_name b))
  | by_date => JS.Number_sub (getTime (doc_uploadDate a)) (getTime (doc_uploadDate b))
  | by_uploader => Some (JS.localeCompare (doc_uploader a) (doc_uploader b))
  end.

Definition comparator (sortBy : SortKey) (sortOrder : SortOrder) (a b : Document) : JS.Number :=
  match sortOrder with
  | asc => comparison sortBy a b
  | desc => JS.Number_neg (comparison sortBy a b)
  end.

Definition filteredDocuments (documents : list Document) (st : State) : list Document :=
  let filtered :=
    List.filter (fun doc => matchesSearch (searchTerm st) doc && matchesType (filterType st) doc)
                documents in
  JS.sort (comparator (sortBy st) (sortOrder st)) filtered.
End Derivation.

Definition SortKey_eqb (a b : SortKey) : bool :=
  match a, b with
  | by_name, by_name | by_date, by_date | by_uploader, by_uploader => true
  | _, _ => false
  end.

Definition handleSort (field : SortKey) (st : State) : State :=
  if SortKey_eqb (sortBy st) field then
    {| searchTerm := searchTerm st; sortBy := sortBy st;
       sortOrder := match sortOrder st with asc => desc | desc => asc end;
       filterType := filterType st |}
  else
    {| searchTerm := searchTerm st; sortBy := field; sortOrder := asc;
       filterType := filterType st |}.

End DocumentList.

(** ** documents/DocumentUpload.tsx *)

Module DocumentUpload.

(** The fields of a browser [File] the flow reads. *)
Record File := mkFile {
  file_name : string;
  file_type : string;
  file_size : Z
}.

Inductive Status := uploading | success | error.

Record UploadFile := mkUploadFile {
  file : File;
  progress : Z;
  status : Status;
  id : string
}.

Record Metadata := mkMetadata {
  uploader : string;
  tags : string;
  clientCase : string
}.

Definition initialMetadata : Metadata :=
  {| uploader := "Current User"; tags := ""; clientCase := "" |}.

(** What the browser supplies when the record is built:
    [new Date().toISOString().split('T')[0]] and
    [URL.createObjectURL]. *)
Record Env := mkEnv {
  today : string;
  createObjectURL : File -> string
}.

Definition fileType (f : File) : string :=
  if JS.includes (file_type f) "pdf" then "pdf"
  else if JS.includes (file_type f) "image" then "image"
  else "docx".

Definition newDocument (env : Env) (metadata : Metadata) (uploadFile : UploadFile) : Document :=
  {| doc_id := id uploadFile;
     doc_name := file_name (file uploadFile);
     doc_type := fileType (file uploadFile);
     doc_uploadDate := today env;
     doc_uploader := uploader metadata;
     doc_tags := Some (if JS.truthy (tags metadata)
                       then map JS.trim (JS.split "," (tags metadata))
                       else []);
     doc_clientCase := if JS.truthy (clientCase metadata)
                       then Some (clientCase metadata) else None;
     doc_fileUrl := createObjectURL env (file uploadFile);
     doc_fileSize := Some (file_size (file uploadFile)) |}.

(** The state a timer tick works on: the tracking list, the document
    store, and whether the interval is still set. *)
Record State := mkState {
  uploadFiles : list UploadFile;
  store : DocumentContext.State;
  running : bool
}.

(** The body of [prev.map(uf => ...)] for one entry, with the store and
    the timer threaded through. *)
Definition tickEntry (env : Env) (metadata : Metadata) (uploadFile : UploadFile)
    (uf : UploadFile) (acc : DocumentContext.State * bool)
    : UploadFile * (DocumentContext.State * bool) :=
  if String.eqb (id uf) (id uploadFile) then
    let newProgress := Z.min (progress uf + 10) 100 in
    if (newProgress =? 100)%Z then
      ({| file := file uf; progress := 100; status := success; id := id uf |},
       (DocumentContext.addDocument (newDocument env metadata uploadFile) (fst acc), false))
    else
      ({| file := file uf; progress := newProgress; status := status uf; id := id uf |}, acc)
  else (uf, acc).

Fixpoint tickMap (env : Env) (metadata : Metadata) (uploadFile : UploadFile)
    (prev : list UploadFile) (acc : DocumentContext.State * bool)
    : list UploadFile * (DocumentContext.State * bool) :=
  match prev with
  | [] => ([], acc)
  | uf :: rest =>
      let '(uf', acc') := tickEntry env metadata uploadFile uf acc in
      let '(rest', acc'') := tickMap env metadata uploadFile rest acc' in
      (uf' :: rest', acc'')
  end.

(** One firing of the interval [simulateUpload uploadFile] set; the
    [metadata] is the one of the render that started the upload. *)
Definition simulateUploadTick (env : Env) (metadata : Metadata) (uploadFile : UploadFile) (st : State) : State :=
  let '(files, (docs, run)) :=
    tickMap env metadata uploadFile (uploadFiles st) (store st, running st) in
  {| uploadFiles := files; store := docs; running := run |}.

End DocumentUpload.

(** ** documents/DocumentPreview.tsx *)

Module DocumentPreview.

Local Open Scope float_scope.

(** [Math.min] and [Math.max] on two arguments: NaN if either is NaN,
    and -0 below +0. *)
Definition Math_min (a b : float) : float :=
  if (is_nan a || is_nan b)%bool then nan
  else if a <? b then a
  else if b <? a then b
  else if get_sign a then a else b.

Definition Math_max (a b : float) : float :=
  if (is_nan a || is_nan b)%bool then nan
  else if a <? b then b
  else if b <? a then a
  else if get_sign a then b else a.

Record State := mkState {
  numPages : option Z;
  pageNumber : Z;
  scale : float;
  pdfError : bool
}.

Definition initialState : State :=
  {| numPages := None; pageNumber := 1%Z; scale := 1.0; pdfError := false |}.

Definition zoomIn (prev : float) : float := Math_min (prev + 0.2) 3.0.
Definition zoomOut (prev : float) : float := Math_max (prev - 0.2) 0.5.

Definition handleZoomIn (st : State) : State :=
  {| numPages := numPages st; pageNumber := pageNumber st;
     scale := zoomIn (scale st); pdfError := pdfError st |}.

Definition handleZoomOut (st : State) : State :=
  {| numPages := numPages st; pageNumber := pageNumber st;
     scale := zoomOut (scale st); pdfError := pdfError st |}.

Inductive Zoom := ZoomIn | ZoomOut.

Definition handleZoom (z : Zoom) (st : State) : State :=
  match z with
  | ZoomIn => handleZoomIn st
  | ZoomOut => handleZoomOut st
  end.

(** The state after a sequence of clicks on the two zoom buttons. *)
Definition run (zs : list Zoom) (st : State) : State :=
  fold_left (fun s z => handleZoom z s) zs st.

End DocumentPreview.

(* ===================================================================== *)
(** * Part I, continued: the notions of the statements, example data    *)
(* ===================================================================== *)

(** ** A host for the examples

    Lower-casing of the Latin-1 letters, comparison by code units, and a
    date parser for [YYYY-MM-DD] and [YYYY-MM-DDTHH:mm] read as UTC. *)

Module Latin1Host.

Definition lowerUnit (c : ascii) : ascii :=
  let n := N_of_ascii c in
  if ((65 <=? n) && (n <=? 90) ||
      (192 <=? n) && (n <=? 222) && negb (n =? 215))%N
  then ascii_of_N (n + 32) else c.

Fixpoint toLowerCase (s : string) : string :=
  match s with
  | EmptyString => EmptyString
  | String c s' => String (lowerUnit c) (toLowerCase s')
  end.

Definition localeCompare (a b : string) : Z :=
  match String.compare a b with
  | Lt => -1
  | Eq => 0
  | Gt => 1
  end.

Definition digit (c : ascii) : option Z :=
  let n := N_of_ascii c in
  if ((48 <=? n) && (n <=? 57))%N then Some (Z.of_N n - 48) else None.

Fixpoint digits (cs : list ascii) (acc : Z) : option Z :=
  match cs with
  | [] => Some acc
  | c :: cs' =>
      match digit c with
      | Some d => digits cs' (10 * acc + d)
      | None => None
      end
  end.

Definition isLeap (y : Z) : bool :=
  ((y mod 4 =? 0) && negb (y mod 100 =? 0) || (y mod 400 =? 0))%Z.

Definition daysInMonth (y m : Z) : Z :=
  if (m =? 2)%Z then (if isLeap y then 29 else 28)
  else if ((m =? 4) || (m =? 6) || (m =? 9) || (m =? 11))%Z then 30 else 31.

(** Days from 1970-01-01 to the civil date [y-m-d]. *)
Definition daysFromCivil (y m d : Z) : Z :=
  let y' := if (m <=? 2)%Z then y - 1 else y in
  let era := y' / 400 in
  let yoe := y' - era * 400 in
  let mp := (m + 9) mod 12 in
  let doy := (153 * mp + 2) / 5 + d - 1 in
  let doe := yoe * 365 + yoe / 4 - yoe / 100 + doy in
  era * 146097 + doe - 719468.

Definition makeTime (y m d h mi : Z) : JS.Date :=
  if ((1 <=? m) && (m <=? 12) && (1 <=? d) && (d <=? daysInMonth y m) &&
      (h <=? 23) && (mi <=? 59))%Z
  then Some (((daysFromCivil y m d * 24 + h) * 60 + mi) * 60000)
  else None.

Definition Date_parse (s : string) : JS.Date :=
  match list_ascii_of_string s with
  | [y1; y2; y3; y4; "-"; m1; m2; "-"; d1; d2]%char =>
      match digits [y1; y2; y3; y4] 0, digits [m1; m2] 0, digits [d1; d2] 0 with
      | Some y, Some m, Some d => makeTime y m d 0 0
      | _, _, _ => None
      end
  | [y1; y2; y3; y4; "-"; m1; m2; "-"; d1; d2; "T"; h1; h2; ":"; n1; n2]%char =>
      match digits [y1; y2; y3; y4] 0, digits [m1; m2] 0, digits [d1; d2] 0,
            digits [h1; h2] 0, digits [n1; n2] 0 with
      | Some y, Some m, Some d, Some h, Some mi => makeTime y m d h mi
      | _, _, _, _, _ => None
      end
  | _ => None
  end.

End Latin1Host.

(** ** The editor: messages and example drafts *)

Module AppointmentFormNotions.
Import AppointmentForm.

Definition titleError : string := "Title is required".
Definition endError : string := "End time must be after start time".

(** A draft with a title and a later end, opened on the slot 10:00 to
    11:00 of 5 November 2025 (UTC). *)
Definition draftOk : State :=
  {| formData := {| title := "Client Meeting - Smith Case";
                    start := Some 1762336800000; end_ := Some 1762340400000;
                    type := "appointment"; client := "John Smith";
                    caseReference := "CASE-2025-001"; location := "";
                    notes := ""; reminder := "1hour" |};
     errors := ∅ |}.

(** An entry whose id is the empty string. *)
Definition entryNoId : Appointment :=
  {| apt_id := ""; apt_title := "Court Hearing";
     apt_start := Some 1762610400000; apt_end := Some 1762617600000;
     apt_type := "court-date"; apt_client := None; apt_caseReference := None;
     apt_location := None; apt_notes := None; apt_reminder := None |}.

(** The editor after a submit with a blank title and an end before the
    start: both errors are set. *)
Definition draftBothErrors : State :=
  {| formData := {| title := "   "; start := Some 1762340400000;
                    end_ := Some 1762336800000; type := "appointment";
                    client := ""; caseReference := ""; location := "";
                    notes := ""; reminder := "1hour" |};
     errors := {[ "title" := "Title is required";
                  "end" := "End time must be after start time" ]} |}.

End AppointmentFormNotions.

(** ** The calendar view: the reading of the spec and example states *)

Module CalendarViewNotions.
Import CalendarView.

(** The spec's reading of a save: replace the entries with the saved
    record's id when there is one, append the record otherwise. *)
Definition upsertById (a : Appointment) (l : list Appointment) : list Appointment :=
  if existsb (fun x => String.eqb (apt_id x) (apt_id a)) l
  then map (fun x => if String.eqb (apt_id x) (apt_id a) then a else x) l
  else l ++ [a].

(** An appointment created at clock reading 1762300000000. *)
Definition createdEarlier : Appointment :=
  {| apt_id := "apt-1762300000000"; apt_title := "Filing Deadline - Brown Case";
     apt_start := Some 1762966800000; apt_end := Some 1762968600000;
     apt_type := "deadline"; apt_client := Some "Robert Brown";
     apt_caseReference := Some "CASE-2025-023"; apt_location := Some "";
     apt_notes := Some ""; apt_reminder := Some "1week" |}.

(** The view with that appointment, the editor open on an empty slot. *)
Definition creating : State :=
  {| showModal := true; selectedAppointment := None;
     selectedSlot := Some {| slot_start := Some 1762336800000;
                             slot_end := Some 1762340400000 |};
     appointments := [createdEarlier] |}.

(** The record the editor hands over when [draftOk] is submitted in
    create mode at that same clock reading. *)
Definition appointmentToSave_at_same_reading : Appointment :=
  {| apt_id := "apt-1762300000000"; apt_title := "Client Meeting - Smith Case";
     apt_start := Some 1762336800000; apt_end := Some 1762340400000;
     apt_type := "appointment"; apt_client := Some "John Smith";
     apt_caseReference := Some "CASE-2025-001"; apt_location := Some "";
     apt_notes := Some ""; apt_reminder := Some "1hour" |}.

End CalendarViewNotions.

(** ** The document store: the scope of the provider *)

Module DocumentContextNotions.
Import DocumentContext.

(** A component is inside the provider's scope when one of its ancestors
    is a [DocumentProvider]. *)
Definition insideProvider (ancestors : list Ancestor) : Prop :=
  exists value, In (DocumentProvider value) ancestors.

End DocumentContextNotions.

(** ** The document list: matching and order, as the statements put them *)

Module DocumentListNotions.
Import DocumentList.

Section Derived.
Context `{platform : JS.Platform}.

(** [a] contains [b] when case is ignored: the lower-cased [b] occurs in
    the lower-cased [a]. *)
Definition containsIgnoringCase (a b : string) : Prop :=
  exists pre post, JS.toLowerCase a = pre +:+ JS.toLowerCase b +:+ post.

(** The record has a parsable upload date. *)
Definition validUploadDate (d : Document) : Prop :=
  is_Some (getTime (doc_uploadDate d)).

(** [a] is not after [b] under the sort key. *)
Definition keyLe (key : SortKey) (a b : Document) : Prop :=
  match key with
  | by_name => (JS.localeCompare (doc_name a) (doc_name b) <= 0)%Z
  | by_date =>
      match getTime (doc_uploadDate a), getTime (doc_uploadDate b) with
      | Some ta, Some tb => (ta <= tb)%Z
      | _, _ => False
      end
  | by_uploader => (JS.localeCompare (doc_uploader a) (doc_uploader b) <= 0)%Z
  end.

(** [a] may stand before [b] in the chosen direction. *)
Definition inOrder (key : SortKey) (order : SortOrder) (a b : Document) : Prop :=
  match order with
  | asc => keyLe key a b
  | desc => keyLe key b a
  end.

(** The records the key orders: all of them under a string key, the ones
    with a valid date under the date key. *)
Definition ordered (key : SortKey) (d : Document) : Prop :=
  match key with
  | by_date => validUploadDate d
  | _ => True
  end.

End Derived.

(** The scenario of the spec on the mock data: "smith" with the filter
    "all", newest first, finds document 2 through its uploader and
    document 1 through its name and its client case. *)
Definition searchSmith : State :=
  {| searchTerm := "smith"; sortBy := by_date; sortOrder := desc; filterType := "all" |}.

Definition toggle (order : SortOrder) : SortOrder :=
  match order with
  | asc => desc
  | desc => asc
  end.

#[export] Instance SortKey_eq_dec : EqDecision SortKey.
Proof. solve_decision. Defined.

End DocumentListNotions.

(** ** The upload flow: occurrences, completion and an example upload *)

Module DocumentUploadNotions.
Import DocumentUpload.

(** [t] occurs in [s]. *)
Definition occursIn (t s : string) : Prop :=
  exists pre post, s = pre +:+ t +:+ post.

(** The pieces of a split, joined with the separator again. *)
Fixpoint join (sep : ascii) (pieces : list string) : string :=
  match pieces with
  | [] => ""
  | [p] => p
  | p :: rest => p +:+ String sep (join sep rest)
  end.

(** The entry is the one the timer belongs to and this tick takes it to
    100. *)
Definition completes (uploadFile uf : UploadFile) : bool :=
  String.eqb (id uf) (id uploadFile) && (90 <=? progress uf)%Z.

(** An upload of a PDF at 90, with two tags and no client case. *)
Definition agreement : UploadFile :=
  {| file := {| file_name := "agreement.pdf"; file_type := "application/pdf";
                file_size := 245000 |};
     progress := 90; status := uploading; id := "1762300000000-0.42" |}.

Definition twoTags : Metadata :=
  {| uploader := "Current User"; tags := "Contract, Client"; clientCase := "" |}.

(** The metadata form with the tags left empty and one space typed into
    the client case. *)
Definition spaceAsCase : Metadata :=
  {| uploader := "Current User"; tags := ""; clientCase := " " |}.

Definition browser : Env :=
  {| today := "2025-11-05";
     createObjectURL := fun f => "blob:" +:+ file_name f |}.

Definition uploadingAgreement : State :=
  {| uploadFiles := [agreement]; store := DocumentContext.initialState;
     running := true |}.

End DocumentUploadNotions.

(** ** The preview: the zoom levels *)

Module DocumentPreviewNotions.
Import DocumentPreview.
Local Open Scope float_scope.

(** The binary64 values the zoom level takes from 1.0 under the two
    buttons.  The additions and subtractions of 0.2 round, so next to
    1.6 there are 1.5999999999999999 and 1.5999999999999994, and so
    on. *)
Definition scales : list float :=
  [ 0.5; 0.5999999999999996; 0.6000000000000001; 0.7; 0.7999999999999996; 0.8;
    0.8999999999999999; 0.9999999999999996; 1.0; 1.0999999999999999;
    1.1999999999999995; 1.2; 1.2999999999999998; 1.3999999999999995; 1.4;
    1.4999999999999998; 1.5999999999999994; 1.5999999999999999;
    1.6999999999999997; 1.7999999999999994; 1.7999999999999998;
    1.8999999999999997; 1.9999999999999993; 1.9999999999999998;
    2.0999999999999996; 2.1999999999999993; 2.1999999999999997; 2.3;
    2.3999999999999995; 2.4; 2.5; 2.5999999999999996; 2.6; 2.7; 2.8;
    2.8000000000000003; 2.9000000000000004; 3.0 ].

(** What holds of a zoom level in [scales]: it is within the bounds, a
    step from it is the sum or difference with 0.2 unless that passes
    the bound, and both steps lead into [scales] again. *)
Definition stepsWithin (s : float) : Prop :=
  (0.5 <=? s) = true /\ (s <=? 3.0) = true /\
  zoomIn s = (if s + 0.2 <=? 3.0 then s + 0.2 else 3.0) /\
  zoomOut s = (if 0.5 <=? s - 0.2 then s - 0.2 else 0.5) /\
  In (zoomIn s) scales /\ In (zoomOut s) scales.

End DocumentPreviewNotions.


(* ===================================================================== *)
(** * Part I, continued: the rest of the components                       *)
(* ===================================================================== *)

(** ** calendar/CalendarView.tsx: the mock data and the event style *)

Module CalendarStyle.

(** The mock appointments; [local y m d h mi] is
    [new Date(y, m, d, h, mi)], a local time with the month counted
    from 0. *)
Definition mockAppointments (local : Z -> Z -> Z -> Z -> Z -> JS.Date) : list Appointment :=
  [ {| apt_id := "1"; apt_title := "Client Consultation - Smith Case";
       apt_start := local 2025 10 5 10 0; apt_end := local 2025 10 5 11 0;
       apt_type := "appointment"; apt_client := Some "John Smith";
       apt_caseReference := Some "CASE-2025-001";
       apt_location := Some "Office - Room 3A";
       apt_notes := Some "Initial consultation regarding property dispute";
       apt_reminder := Some "1hour" |};
    {| apt_id := "2"; apt_title := "Court Hearing - Johnson v. State";
       apt_start := local 2025 10 8 14 0; apt_end := local 2025 10 8 16 0;
       apt_type := "court-date"; apt_client := Some "Mary Johnson";
       apt_caseReference := Some "CASE-2025-045";
       apt_location := Some "District Court, Courtroom 5B";
       apt_notes := Some "Preliminary hearing";
       apt_reminder := Some "1day" |};
    {| apt_id := "3"; apt_title := "Filing Deadline - Brown Case";
       apt_start := local 2025 10 12 17 0; apt_end := local 2025 10 12 17 30;
       apt_type := "deadline"; apt_client := Some "Robert Brown";
       apt_caseReference := Some "CASE-2025-023";
       apt_location := None;
       apt_notes := Some "Motion to dismiss must be filed by 5:00 PM";
       apt_reminder := Some "1week" |};
    {| apt_id := "4"; apt_title := "Document Review Meeting";
       apt_start := local 2025 10 15 9 0; apt_end := local 2025 10 15 10 30;
       apt_type := "task"; apt_client := None; apt_caseReference := None;
       apt_location := Some "Conference Room B";
       apt_notes := Some "Review discovery documents with legal team";
       apt_reminder := Some "1hour" |} ].

Definition initialState (local : Z -> Z -> Z -> Z -> Z -> JS.Date) : CalendarView.State :=
  {| CalendarView.showModal := false;
     CalendarView.selectedAppointment := None;
     CalendarView.selectedSlot := None;
     CalendarView.appointments := mockAppointments local |}.

(** [a < b] on two dates. *)
Definition Date_lt (a b : JS.Date) : bool := JS.Date_gt b a.

Record Style := mkStyle {
  backgroundColor : string;
  borderRadius : string;
  opacity : float;
  color : string;
  border : string;
  display : string;
  fontWeight : string
}.

(** The [switch] on the type; a type outside the four keeps the initial
    colour. *)
Definition colorOf (type : string) : string :=
  if String.eqb type "appointment" then "#3174ad"
  else if String.eqb type "court-date" then "#dc3545"
  else if String.eqb type "deadline" then "#fd7e14"
  else if String.eqb type "task" then "#28a745"
  else "#3174ad".

(** [event.start > new Date() && event.start < new Date(Date.now() + 24h)];
    [now1] and [now2] are the two clock readings. *)
Definition isUpcoming (now1 now2 : Z) (event : Appointment) : bool :=
  JS.Date_gt (apt_start event) (Some now1) &&
  Date_lt (apt_start event) (Some (now2 + 24 * 60 * 60 * 1000)).

Definition eventStyleGetter (now1 now2 : Z) (event : Appointment) : Style :=
  {| backgroundColor := colorOf (apt_type event);
     borderRadius := "4px";
     opacity := 0.9%float;
     color := "white";
     border := if isUpcoming now1 now2 event then "2px solid #ffc107" else "none";
     display := "block";
     fontWeight := if isUpcoming now1 now2 event then "bold" else "normal" |}.

End CalendarStyle.

(** ** The calendar view driven by the calendar widget and the editor *)

Module CalendarApp.
Import CalendarView.

(** What can happen to the view: the widget reports a slot or the i-th
    entry it shows; the editor, whatever its draft [fs] is, is submitted
    at clock reading [now]; its delete button is pressed and the
    confirmation answered; it is closed.  The editor is rendered, and
    its buttons exist, only while [showModal] holds. *)
Inductive Event :=
| SelectSlot (slotInfo : Slot)
| SelectEvent (i : nat)
| Submit (now : Z) (fs : AppointmentForm.State)
| Delete (confirmed : bool)
| Close.

Definition dispatchAll (calls : list AppointmentForm.Call) (st : State) : State :=
  fold_left (fun s c => dispatch c s) calls st.

Definition step (e : Event) (st : State) : State :=
  match e with
  | SelectSlot slotInfo => handleSelectSlot slotInfo st
  | SelectEvent i =>
      match appointments st !! i with
      | Some event => handleSelectEvent event st
      | None => st
      end
  | Submit now fs =>
      if showModal st
      then dispatchAll (AppointmentForm.handleSubmit (formProps st) now fs).2 st
      else st
  | Delete confirmed =>
      if showModal st
      then dispatchAll (AppointmentForm.handleDelete (formProps st) confirmed) st
      else st
  | Close => if showModal st then dispatchAll [AppointmentForm.onClose] st else st
  end.

Definition run (es : list Event) (st : State) : State :=
  fold_left (fun s e => step e s) es st.

(** What the view keeps: no entry has the empty id; a selected
    appointment is an entry of the collection; an appointment and a slot
    are never selected together; nothing is selected while the modal is
    closed. *)
Definition Inv (st : State) : Prop :=
  (forall x, In x (appointments st) -> apt_id x <> "") /\
  (forall x, selectedAppointment st = Some x -> In x (appointments st)) /\
  (selectedAppointment st = None \/ selectedSlot st = None) /\
  (showModal st = false -> selectedAppointment st = None /\ selectedSlot st = None).

End CalendarApp.

(** ** documents/DocumentList.tsx: the type options and the row actions *)

Module DocumentListRows.
Import DocumentList.

(** [Array.from(new Set(xs))]: the elements in the order of their first
    occurrence; [seen] are the ones already in the set. *)
Fixpoint setFrom (seen xs : list string) : list string :=
  match xs with
  | [] => []
  | x :: rest =>
      if existsb (String.eqb x) seen then setFrom seen rest
      else x :: setFrom (x :: seen) rest
  end.

Definition documentTypes (documents : list Document) : list string :=
  "all" :: setFrom [] (map doc_type documents).

Definition handlePreview (doc : Document) (store : DocumentContext.State) : DocumentContext.State :=
  DocumentContext.setSelectedDocument (Some doc) store.

(** [confirmed] is the answer of [window.confirm]. *)
Definition handleDelete (id name : string) (confirmed : bool)
    (store : DocumentContext.State) : DocumentContext.State :=
  if confirmed then DocumentContext.deleteDocument id store else store.

Record App := mkApp {
  store : DocumentContext.State;
  view : State
}.

Definition setSearchTerm (v : string) (st : State) : State :=
  {| searchTerm := v; sortBy := sortBy st; sortOrder := sortOrder st;
     filterType := filterType st |}.

Definition setFilterType (v : string) (st : State) : State :=
  {| searchTerm := searchTerm st; sortBy := sortBy st; sortOrder := sortOrder st;
     filterType := v |}.

(** What can happen to the store and the list: typing in the search box,
    choosing a type, a click on a column, on the preview or the delete
    button of the i-th row shown, closing the preview, and an upload
    that completes. *)
Inductive Event :=
| Search (term : string)
| Filter (type : string)
| Sort (field : SortKey)
| Preview (i : nat)
| DeleteRow (i : nat) (confirmed : bool)
| ClosePreview
| Uploaded (document : Document).

Section Rows.
Context `{platform : JS.Platform}.

Definition rows (app : App) : list Document :=
  filteredDocuments (DocumentContext.documents (store app)) (view app).

Definition step (e : Event) (app : App) : App :=
  match e with
  | Search term => {| store := store app; view := setSearchTerm term (view app) |}
  | Filter type => {| store := store app; view := setFilterType type (view app) |}
  | Sort field => {| store := store app; view := handleSort field (view app) |}
  | Preview i =>
      match rows app !! i with
      | Some doc => {| store := handlePreview doc (store app); view := view app |}
      | None => app
      end
  | DeleteRow i confirmed =>
      match rows app !! i with
      | Some doc =>
          {| store := handleDelete (doc_id doc) (doc_name doc) confirmed (store app);
             view := view app |}
      | None => app
      end
  | ClosePreview =>
      {| store := DocumentContext.setSelectedDocument None (store app); view := view app |}
  | Uploaded document =>
      {| store := DocumentContext.addDocument document (store app); view := view app |}
  end.

Definition run (es : list Event) (app : App) : App :=
  fold_left (fun a e => step e a) es app.

End Rows.

Definition initialApp : App :=
  {| store := DocumentContext.initialState; view := initialState |}.

(** The selection, when there is one, is a record of the collection. *)
Definition selectionListed (st : DocumentContext.State) : Prop :=
  forall d, DocumentContext.selectedDocument st = Some d ->
            In d (DocumentContext.documents st).

End DocumentListRows.

(** ** documents/DocumentUpload.tsx: selecting, removing and clearing *)

Module DocumentUploadFlow.
Import DocumentUpload.

(** The entries [handleFileSelect] makes of the files; each file comes
    with the id [`${Date.now()}-${Math.random()}`] gives it. *)
Definition newFiles (fs : list (File * string)) : list UploadFile :=
  map (fun '(f, i) => {| file := f; progress := 0; status := uploading; id := i |}) fs.

(** [handleFileSelect].  [null] files: nothing happens.  Otherwise the
    new entries go behind the tracked ones and [simulateUpload] is
    called on each of them, which sets an interval of its own for it:
    with a file selected, the intervals of the selection are set.  Each
    firing then carries its upload ([Tick], [ticks]). *)
Definition handleFileSelect (files : option (list (File * string))) (st : State) : State :=
  match files with
  | None => st
  | Some fs =>
      {| uploadFiles := uploadFiles st ++ newFiles fs; store := store st;
         running := match newFiles fs with
                    | [] => running st
                    | _ :: _ => true
                    end |}
  end.

Definition Status_eqb (a b : Status) : bool :=
  match a, b with
  | uploading, uploading | success, success | error, error => true
  | _, _ => false
  end.

Definition removeFile (i : string) (st : State) : State :=
  {| uploadFiles := List.filter (fun uf => negb (String.eqb (id uf) i)) (uploadFiles st);
     store := store st; running := running st |}.

Definition clearCompleted (st : State) : State :=
  {| uploadFiles := List.filter (fun uf => negb (Status_eqb (status uf) success)) (uploadFiles st);
     store := store st; running := running st |}.

(** The state as a firing finds it: its interval is set, or it would
    not fire. *)
Definition fired (st : State) : State :=
  {| uploadFiles := uploadFiles st; store := store st; running := true |}.

(** The interval [simulateUpload uploadFile] has set, firing [n] times
    or until it clears itself.  The interval is the upload's own: that
    the interval of another upload has been cleared does not stop it. *)
Fixpoint ticks (env : Env) (metadata : Metadata) (uploadFile : UploadFile)
    (n : nat) (st : State) : State :=
  match n with
  | O => st
  | S k =>
      let st' := simulateUploadTick env metadata uploadFile (fired st) in
      if running st' then ticks env metadata uploadFile k st' else st'
  end.

(** What can happen to the tracking list: files are selected or
    dropped, the interval of some upload fires, an entry is removed, the
    completed ones are cleared. *)
Inductive Event :=
| Select (files : option (list (File * string)))
| Tick (env : Env) (metadata : Metadata) (uploadFile : UploadFile)
| Remove (i : string)
| ClearCompleted.

Definition step (e : Event) (st : State) : State :=
  match e with
  | Select files => handleFileSelect files st
  | Tick env metadata uploadFile => simulateUploadTick env metadata uploadFile st
  | Remove i => removeFile i st
  | ClearCompleted => clearCompleted st
  end.

Definition run (es : list Event) (st : State) : State :=
  fold_left (fun s e => step e s) es st.

(** The entry after [n] firings from progress 0. *)
Definition entryAfter (n : nat) (uf : UploadFile) : UploadFile :=
  {| file := file uf; progress := Z.min (10 * Z.of_nat n) 100;
     status := if (10 <=? n)%nat then success else status uf; id := id uf |}.

(** An entry as the flow makes them: uploading at 0, 10, ..., 90, or a
    success at 100. *)
Definition tracked (uf : UploadFile) : Prop :=
  (status uf = uploading /\ exists k, 0 <= k < 10 /\ progress uf = 10 * k) \/
  (status uf = success /\ progress uf = 100).

(** The panel as it is mounted over a store: nothing tracked, no
    interval set. *)
Definition mounted (docs : DocumentContext.State) : State :=
  {| uploadFiles := []; store := docs; running := false |}.

(** What one firing may do to an entry: it keeps the file and the id,
    leaves the entries of other uploads alone, never lowers a progress
    that is at most 100 nor takes it beyond 100, and changes the status
    to success or not at all. *)
Definition advanced (uploadFile before after : UploadFile) : Prop :=
  id after = id before /\ file after = file before /\
  (id before <> id uploadFile -> after = before) /\
  (progress before <= 100 -> progress before <= progress after <= 100) /\
  (status after = status before \/ status after = success).

End DocumentUploadFlow.

(** ** documents/DocumentPreview.tsx: pages, closing, the shown zoom *)

Module DocumentPreviewPages.
Import DocumentPreview.

Definition onDocumentLoadSuccess (n : Z) (st : State) : State :=
  {| numPages := Some n; pageNumber := 1; scale := scale st; pdfError := false |}.

Definition onDocumentLoadError (st : State) : State :=
  {| numPages := numPages st; pageNumber := pageNumber st; scale := scale st;
     pdfError := true |}.

(** [handleClose], the part on the preview's own state; the selection is
    cleared in the store. *)
Definition handleClose (st : State) : State :=
  {| numPages := numPages st; pageNumber := 1; scale := 1.0%float; pdfError := false |}.

(** [numPages && pageNumber < numPages]: [null] and 0 are falsy. *)
Definition goToNextPage (st : State) : State :=
  match numPages st with
  | Some n =>
      if negb (n =? 0)%Z && (pageNumber st <? n)%Z
      then {| numPages := numPages st; pageNumber := pageNumber st + 1;
              scale := scale st; pdfError := pdfError st |}
      else st
  | None => st
  end.

Definition goToPreviousPage (st : State) : State :=
  if (1 <? pageNumber st)%Z
  then {| numPages := numPages st; pageNumber := pageNumber st - 1;
          scale := scale st; pdfError := pdfError st |}
  else st.

Inductive Event :=
| Loaded (n : Z)
| LoadFailed
| Next
| Previous
| ZoomedIn
| ZoomedOut
| Closed.

Definition step (e : Event) (st : State) : State :=
  match e with
  | Loaded n => onDocumentLoadSuccess n st
  | LoadFailed => onDocumentLoadError st
  | Next => goToNextPage st
  | Previous => goToPreviousPage st
  | ZoomedIn => handleZoomIn st
  | ZoomedOut => handleZoomOut st
  | Closed => handleClose st
  end.

Definition run (es : list Event) (st : State) : State :=
  fold_left (fun s e => step e s) es st.

(** [Math.round] on a finite number: the nearest integer, a tie going
    up; nothing for NaN and the infinities. *)
Definition Math_round (x : float) : option Z :=
  match Prim2SF x with
  | S754_finite s m e =>
      let v := if s then Z.neg m else Z.pos m in
      Some (if (0 <=? e)%Z then v * 2 ^ e
            else (2 * v + 2 ^ (- e)) / (2 * 2 ^ (- e)))
  | S754_zero _ => Some 0
  | _ => None
  end.

(** [Math.round(scale * 100)], the number shown before the per cent
    sign. *)
Definition shownPercent (st : State) : option Z :=
  Math_round (scale st * 100)%float.

(** The [disabled] attributes of the two zoom buttons. *)
Definition zoomOutDisabled (st : State) : bool := (scale st <=? 0.5)%float.
Definition zoomInDisabled (st : State) : bool := (3.0 <=? scale st)%float.

(** The page shown is a page of the document: at least 1, 1 before any
    document is loaded, and at most the page count once one is. *)
Definition pageShown (st : State) : Prop :=
  1 <= pageNumber st /\
  match numPages st with
  | Some n => pageNumber st <= Z.max 1 n
  | None => pageNumber st = 1
  end.

(** A zoom button is disabled exactly when its click would leave the
    zoom level where it is; an enabled one moves it in its direction. *)
Definition buttonsTell (st : State) : Prop :=
  (if zoomInDisabled st then scale (handleZoomIn st) = scale st
   else (scale st <? scale (handleZoomIn st))%float = true) /\
  (if zoomOutDisabled st then scale (handleZoomOut st) = scale st
   else (scale (handleZoomOut st) <? scale st)%float = true).

(** The number shown is a multiple of ten from 50 to 300, and the two
    buttons move it by twenty within these bounds. *)
Definition percentSteps (st : State) : Prop :=
  exists p,
    shownPercent st = Some p /\
    50 <= p <= 300 /\ p mod 10 = 0 /\
    shownPercent (handleZoomIn st) = Some (Z.min (p + 20) 300) /\
    shownPercent (handleZoomOut st) = Some (Z.max (p - 20) 50).

(** The preview state at a zoom level, the rest as at the start. *)
Definition atScale (s : float) : State :=
  {| numPages := None; pageNumber := 1; scale := s; pdfError := false |}.

End DocumentPreviewPages.


(** ** calendar/AppointmentForm.tsx: the value of the two time inputs *)

Module DateTimeLocal.

(** What the getters of a valid [Date] return: [getFullYear],
    [getMonth] (from 0), [getDate], [getHours], [getMinutes], in local
    time.  On an Invalid Date each of them returns NaN. *)
Record LocalFields := mkLocalFields {
  getFullYear : Z;
  getMonth : Z;
  getDate : Z;
  getHours : Z;
  getMinutes : Z
}.

(** [String(n)] on an integer or NaN. *)
Definition String_of (n : JS.Number) : string :=
  match n with
  | Some z => pretty z
  | None => "NaN"
  end.

(** [s.padStart(2, '0')] *)
Definition padStart2 (s : string) : string :=
  match String.length s with
  | O => "00"
  | S O => "0" +:+ s
  | _ => s
  end.

Definition formatDateTimeLocal (date : option LocalFields) : string :=
  let year := String_of (option_map getFullYear date) in
  let month := padStart2 (String_of (option_map (fun f => getMonth f + 1) date)) in
  let day := padStart2 (String_of (option_map getDate date)) in
  let hours := padStart2 (String_of (option_map getHours date)) in
  let minutes := padStart2 (String_of (option_map getMinutes date)) in
  year +:+ "-" +:+ month +:+ "-" +:+ day +:+ "T" +:+ hours +:+ ":" +:+ minutes.

(** Two characters that are the decimal digits of [n]. *)
Definition twoDigits (n : Z) (s : string) : bool :=
  match list_ascii_of_string s with
  | [a; b] =>
      match Latin1Host.digits [a; b] 0 with
      | Some v => (v =? n)%Z
      | None => false
      end
  | _ => false
  end.

(** Four characters that are the decimal digits of [n]. *)
Definition fourDigits (n : Z) (s : string) : bool :=
  match list_ascii_of_string s with
  | [a; b; c; d] =>
      match Latin1Host.digits [a; b; c; d] 0 with
      | Some v => (v =? n)%Z
      | None => false
      end
  | _ => false
  end.

End DateTimeLocal.


(* ===================================================================== *)
(** * Part II: the properties                                             *)
(* ===================================================================== *)

(** ** Strings *)

Module JSFacts.
Import JS.

Lemma truthy_true (s : string) : truthy s = true <-> s <> "".
Proof. destruct s; simpl; split; congruence. Qed.

Lemma truthy_false (s : string) : truthy s = false <-> s = "".
Proof. destruct s; simpl; split; congruence. Qed.

Lemma trimEnd_empty (s : string) :
  trimEnd s = "" <-> forallb isWhiteSpace (list_ascii_of_string s) = true.
Proof.
  induction s as [|c s IH]; simpl.
  - tauto.
  - destruct (trimEnd s) eqn:E.
    + destruct (isWhiteSpace c); simpl.
      * rewrite <- IH. tauto.
      * split; discriminate.
    + split; [discriminate|].
      rewrite andb_true_iff. intros [_ Hs]. apply IH in Hs. discriminate.
Qed.

(** A string trims to the empty string exactly when it is empty or made
    of white space only. *)
Lemma trim_empty_iff (s : string) :
  trim s = "" <-> forallb isWhiteSpace (list_ascii_of_string s) = true.
Proof.
  unfold trim. rewrite trimEnd_empty.
  induction s as [|c s IH]; simpl; [tauto|].
  destruct (isWhiteSpace c) eqn:Ec; simpl.
  - exact IH.
  - rewrite Ec. simpl. tauto.
Qed.

Lemma prefix_app (t s : string) :
  String.prefix t s = true <-> exists post, s = t +:+ post.
Proof.
  revert s. induction t as [|c t IH]; intros s; simpl.
  - split; [exists s; reflexivity | destruct s; reflexivity].
  - destruct s as [|d s]; simpl.
    + split; [discriminate | intros [post Hp]; discriminate].
    + destruct (ascii_dec c d) as [->|Hne].
      * rewrite IH. split; intros [post Hp]; exists post.
        -- rewrite Hp. reflexivity.
        -- injection Hp as Hp. exact Hp.
      * split; [discriminate | intros [post Hp]; injection Hp as Hc _; congruence].
Qed.

Lemma includes_nil (t : string) : includes "" t = String.prefix t "".
Proof. unfold includes. apply orb_false_r. Qed.

Lemma includes_cons (c : ascii) (s t : string) :
  includes (String c s) t = String.prefix t (String c s) || includes s t.
Proof. reflexivity. Qed.

(** [includes] finds [t] exactly when [s] is [pre ++ t ++ post]. *)
Lemma includes_spec (s t : string) :
  includes s t = true <-> exists pre post, s = pre +:+ t +:+ post.
Proof.
  induction s as [|c s IH].
  - rewrite includes_nil, prefix_app. split.
    + intros [post Hp]. exists "", post. exact Hp.
    + intros [pre [post Hp]]. destruct pre; [exists post; exact Hp | discriminate Hp].
  - rewrite includes_cons, orb_true_iff, prefix_app, IH. split.
    + intros [[post Hp] | [pre [post Hp]]].
      * exists "", post. exact Hp.
      * exists (String c pre), post. rewrite Hp. reflexivity.
    + intros [pre [post Hp]]. destruct pre as [|d pre].
      * left. exists post. exact Hp.
      * right. exists pre, post. injection Hp as _ Hp. exact Hp.
Qed.

Lemma includes_empty (s : string) : includes s "" = true.
Proof. destruct s; reflexivity. Qed.

End JSFacts.

(** ** The example host is a platform *)

Module Latin1HostFacts.
Import Latin1Host.

Lemma localeCompare_le (a b : string) :
  (localeCompare a b <= 0)%Z <-> String.le a b.
Proof.
  unfold localeCompare, String.le, String.leb.
  destruct (String.compare a b); simpl; intuition (lia || discriminate).
Qed.

Lemma localeCompare_antisym (a b : string) :
  Z.sgn (localeCompare b a) = (- Z.sgn (localeCompare a b))%Z.
Proof.
  unfold localeCompare. rewrite (String.compare_antisym a b).
  destruct (String.compare b a); reflexivity.
Qed.

Lemma localeCompare_trans (a b c : string) :
  (localeCompare a b <= 0)%Z -> (localeCompare b c <= 0)%Z ->
  (localeCompare a c <= 0)%Z.
Proof.
  rewrite !localeCompare_le. intros Hab Hbc. etransitivity; eassumption.
Qed.

#[export] Instance host : JS.Platform := {|
  JS.toLowerCase := toLowerCase;
  JS.localeCompare := localeCompare;
  JS.Date_parse := Date_parse;
  JS.toLowerCase_empty := eq_refl;
  JS.localeCompare_antisym := localeCompare_antisym;
  JS.localeCompare_trans := localeCompare_trans
|}.

Example Date_parse_mock :
  Date_parse "2024-10-15" = Some 1728950400000 /\
  Date_parse "2025-11-05T10:00" = Some 1762336800000 /\
  Date_parse "" = None /\
  Date_parse "2024-02-30" = None.
Proof. vm_compute. repeat split. Qed.

Example toLowerCase_smith :
  toLowerCase "Client Agreement - Smith v. Jones" = "client agreement - smith v. jones".
Proof. reflexivity. Qed.

End Latin1HostFacts.

(** ** The appointment editor: validation and save *)

Module AppointmentFormFacts.
Import AppointmentForm AppointmentFormNotions.

(** The error map [validate] builds, key by key. *)
Lemma newErrors_title (fd : FormData) :
  newErrors fd !! "title" =
    if decide (JS.trim (title fd) = "") then Some titleError else None.
Proof.
  unfold newErrors.
  destruct (JS.truthy (JS.trim (title fd))) eqn:Et;
    destruct (JS.Date_ge (start fd) (end_ fd));
    [apply JSFacts.truthy_true in Et | apply JSFacts.truthy_true in Et
    | apply JSFacts.truthy_false in Et | apply JSFacts.truthy_false in Et];
    case_decide; try congruence; reflexivity.
Qed.

Lemma newErrors_end (fd : FormData) :
  newErrors fd !! "end" =
    if JS.Date_ge (start fd) (end_ fd) then Some endError else None.
Proof.
  unfold newErrors.
  destruct (JS.truthy (JS.trim (title fd))), (JS.Date_ge (start fd) (end_ fd));
    reflexivity.
Qed.

Lemma newErrors_other (fd : FormData) (k : string) :
  k <> "title" -> k <> "end" -> newErrors fd !! k = None.
Proof.
  intros Ht He. unfold newErrors.
  destruct (JS.truthy (JS.trim (title fd))), (JS.Date_ge (start fd) (end_ fd));
    repeat (rewrite lookup_insert_ne by congruence); apply lookup_empty.
Qed.

(** [validate] answers true exactly when neither check fired. *)
Lemma validate_true_iff (st : State) :
  (validate st).2 = true <->
  JS.trim (title (formData st)) <> "" /\
  JS.Date_ge (start (formData st)) (end_ (formData st)) = false.
Proof.
  unfold validate. simpl. rewrite Nat.eqb_eq, map_size_empty_iff.
  split.
  - intros Hne.
    pose proof (newErrors_title (formData st)) as Ht.
    pose proof (newErrors_end (formData st)) as He.
    rewrite Hne, lookup_empty in Ht, He.
    split.
    + case_decide; [discriminate | assumption].
    + destruct (JS.Date_ge _ _); [discriminate | reflexivity].
  - intros [Ht He]. apply map_eq. intros k. rewrite lookup_empty.
    destruct (decide (k = "title")) as [->|Hk1].
    { rewrite newErrors_title. case_decide; congruence. }
    destruct (decide (k = "end")) as [->|Hk2].
    { rewrite newErrors_end, He. reflexivity. }
    apply newErrors_other; assumption.
Qed.

Lemma validate_true_errors (st : State) :
  (validate st).2 = true -> newErrors (formData st) = ∅.
Proof.
  unfold validate. simpl. rewrite Nat.eqb_eq. apply map_size_empty_iff.
Qed.

(** What [handleSubmit] does in either case. *)
Lemma handleSubmit_unfold (p : Props) (now : Z) (st : State) :
  handleSubmit p now st =
    ({| formData := formData st; errors := newErrors (formData st) |},
     if (validate st).2
     then [onSave (appointmentToSave p now (formData st))]
     else []).
Proof.
  unfold handleSubmit, validate. simpl.
  destruct (Nat.eqb (size (newErrors (formData st))) 0); reflexivity.
Qed.

(** A synthesized id is never empty, so a record the editor created is
    edited under its own id from then on. *)
Lemma freshId_truthy (now : Z) : JS.truthy (freshId now) = true.
Proof. reflexivity. Qed.

(** Two different clock readings give two different ids. *)
Lemma freshId_inj (now1 now2 : Z) : freshId now1 = freshId now2 -> now1 = now2.
Proof.
  unfold freshId. intros Heq. apply (inj (String.app "apt-")) in Heq.
  apply (inj pretty) in Heq. exact Heq.
Qed.

(** Where the editor does block and save as it should: on a draft
    whose start [s] and end [e] are both valid instants.  Submitting
    calls [onSave] if and only if the trimmed title is non-empty and
    [s < e].  It is then called exactly once, with a record that carries
    every field of the draft and whose id is the id of the record being
    edited when that id is non-empty, and [apt-<clock reading>] when
    creating (or when the edited record's id is empty); no error is
    left.  Otherwise nothing is called, and the error map holds "Title
    is required" under [title] exactly when the trimmed title is empty
    and "End time must be after start time" under [end] exactly when
    [e <= s], each independently of the other, and nothing under any
    other key.  The draft itself is not changed. *)
Theorem handleSubmit_saves_iff_valid
    (p : Props) (now : Z) (st : State) (s e : Z) :
  start (formData st) = Some s ->
  end_ (formData st) = Some e ->
  let fd := formData st in
  let st' := (handleSubmit p now st).1 in
  let calls := (handleSubmit p now st).2 in
  ((exists a, In (onSave a) calls) <-> JS.trim (title fd) <> "" /\ s < e) /\
  (JS.trim (title fd) <> "" /\ s < e ->
     exists a, calls = [onSave a] /\
       apt_id a = match appointment p with
                  | Some x => if decide (apt_id x = "") then "apt-" +:+ pretty now
                              else apt_id x
                  | None => "apt-" +:+ pretty now
                  end /\
       apt_title a = title fd /\ apt_start a = Some s /\ apt_end a = Some e /\
       apt_type a = type fd /\ apt_client a = Some (client fd) /\
       apt_caseReference a = Some (caseReference fd) /\
       apt_location a = Some (location fd) /\ apt_notes a = Some (notes fd) /\
       apt_reminder a = Some (reminder fd) /\
       errors st' = ∅) /\
  (~ (JS.trim (title fd) <> "" /\ s < e) -> calls = []) /\
  errors st' !! "title" =
    (if decide (JS.trim (title fd) = "") then Some "Title is required" else None) /\
  errors st' !! "end" =
    (if decide (e <= s) then Some "End time must be after start time" else None) /\
  (forall k, k <> "title" -> k <> "end" -> errors st' !! k = None) /\
  formData st' = fd.
Proof.
  intros Hs He fd st' calls.
  assert (Hge : JS.Date_ge (start fd) (end_ fd) = bool_decide (e <= s)).
  { subst fd. rewrite Hs, He. simpl.
    destruct (Z.leb_spec e s); symmetry;
      [apply bool_decide_eq_true | apply bool_decide_eq_false]; lia. }
  assert (Hok : (validate st).2 = true <-> JS.trim (title fd) <> "" /\ s < e).
  { rewrite validate_true_iff. fold fd. rewrite Hge.
    rewrite bool_decide_eq_false. intuition lia. }
  subst st' calls. rewrite handleSubmit_unfold. cbn [fst snd errors formData]. fold fd.
  refine (conj _ (conj _ (conj _ (conj _ (conj _ (conj _ _)))))).
  - split.
    + intros [a Ha]. apply Hok. destruct ((validate st).2); [reflexivity | inversion Ha].
    + intros Hv. apply Hok in Hv. rewrite Hv. eexists. left. reflexivity.
  - intros Hv. pose proof Hv as Hv'. apply Hok in Hv'. rewrite Hv'.
    eexists. split; [reflexivity|]. simpl. fold fd.
    split.
    { destruct (appointment p) as [x|]; [|reflexivity].
      destruct (decide (apt_id x = "")) as [Hx|Hx].
      - rewrite Hx. reflexivity.
      - apply JSFacts.truthy_true in Hx. rewrite Hx. reflexivity. }
    subst fd. rewrite Hs, He.
    do 9 (split; [reflexivity|]).
    apply validate_true_errors. exact Hv'.
  - intros Hv. destruct ((validate st).2) eqn:Ev; [|reflexivity].
    exfalso. apply Hv, Hok. reflexivity.
  - apply newErrors_title.
  - rewrite newErrors_end, Hge. unfold endError.
    destruct (decide (e <= s)) as [Hle|Hgt].
    + rewrite bool_decide_eq_true_2 by assumption. reflexivity.
    + rewrite bool_decide_eq_false_2 by assumption. reflexivity.
  - apply newErrors_other.
  - reflexivity.
Qed.

(** The theorem at [draftOk], opened on an empty slot at clock reading
    1762300000000: one call of [onSave], with a record under the id made
    from the clock reading, and no error left. *)
Lemma handleSubmit_saves_iff_valid_witness :
  let p := {| appointment := None; initialSlot := None |} in
  start (formData draftOk) = Some 1762336800000 /\
  end_ (formData draftOk) = Some 1762340400000 /\
  exists a,
    (handleSubmit p 1762300000000 draftOk).2 = [onSave a] /\
    apt_id a = "apt-1762300000000" /\
    apt_title a = "Client Meeting - Smith Case" /\
    errors (handleSubmit p 1762300000000 draftOk).1 = ∅.
Proof.
  intros p. split; [reflexivity|]. split; [reflexivity|].
  destruct (handleSubmit_saves_iff_valid p 1762300000000 draftOk
              1762336800000 1762340400000 eq_refl eq_refl)
    as (_ & Hsave & _).
  destruct Hsave as (a & Hcalls & Hid & Htitle & Hrest).
  { split; [vm_compute; discriminate | lia]. }
  exists a. split; [exact Hcalls|]. split; [exact Hid|]. split; [exact Htitle|].
  apply Hrest.
Defined.

(** Where it does not: the check [formData.start >= formData.end] is
    false as soon as one of the two is an Invalid Date, so a draft with
    a title and an Invalid Date for its start or its end gets no error
    and is saved as it is, although its end is not after its start. *)
Lemma handleSubmit_invalid_date_saves (p : Props) (now : Z) (st : State) :
  JS.trim (title (formData st)) <> "" ->
  start (formData st) = None \/ end_ (formData st) = None ->
  JS.Date_gt (end_ (formData st)) (start (formData st)) = false /\
  handleSubmit p now st =
    ({| formData := formData st; errors := ∅ |},
     [onSave (appointmentToSave p now (formData st))]).
Proof.
  intros Htitle Hinvalid.
  assert (Hge : JS.Date_ge (start (formData st)) (end_ (formData st)) = false).
  { destruct Hinvalid as [-> | ->]; [reflexivity|].
    destruct (start (formData st)); reflexivity. }
  split.
  - destruct Hinvalid as [-> | ->]; [|reflexivity].
    destruct (end_ (formData st)); reflexivity.
  - assert (Hok : (validate st).2 = true).
    { apply validate_true_iff. split; assumption. }
    rewrite handleSubmit_unfold, Hok, (validate_true_errors st Hok). reflexivity.
Qed.

(** C1 fails on an emptied start field.  The editor is opened on the
    first mock appointment (id "1", 5 November 2025, 10:00 to 11:00,
    read in UTC) and the user empties the start field: the change
    handler stores [new Date('')], an Invalid Date.  On submit the end is
    not after the start (no comparison with an Invalid Date holds), yet
    no error is set and [onSave] is called, with a record under the id
    "1" whose start is the Invalid Date.  The form marks the start as
    required, and [validate] is there to block such a draft: its test
    misses the Invalid Date. *)
Theorem handleSubmit_saves_invalid_start :
  let utc := fun y m d h mi => Latin1Host.makeTime y (m + 1) d h mi in
  exists a rest,
    CalendarStyle.mockAppointments utc = a :: rest /\
    let p := {| appointment := Some a; initialSlot := None |} in
    let opened := seed p (initialState 1762300000000 1762300000001) in
    let st := handleInputChange (platform := Latin1HostFacts.host) f_start "" opened in
    start (formData opened) = Some 1762336800000 /\
    end_ (formData opened) = Some 1762340400000 /\
    start (formData st) = None /\
    end_ (formData st) = Some 1762340400000 /\
    JS.trim (title (formData st)) <> "" /\
    JS.Date_gt (end_ (formData st)) (start (formData st)) = false /\
    errors (handleSubmit p 1762300005000 st).1 = ∅ /\
    (handleSubmit p 1762300005000 st).2
    = [onSave {| apt_id := "1"; apt_title := "Client Consultation - Smith Case";
                 apt_start := None; apt_end := Some 1762340400000;
                 apt_type := "appointment"; apt_client := Some "John Smith";
                 apt_caseReference := Some "CASE-2025-001";
                 apt_location := Some "Office - Room 3A";
                 apt_notes := Some "Initial consultation regarding property dispute";
                 apt_reminder := Some "1hour" |}].
Proof.
  intros utc. eexists. eexists. split; [reflexivity|].
  intros p opened st.
  assert (Hstart : start (formData st) = None) by reflexivity.
  assert (Htitle : JS.trim (title (formData st)) <> "") by (vm_compute; discriminate).
  destruct (handleSubmit_invalid_date_saves p 1762300005000 st Htitle (or_introl Hstart))
    as [Hgt Hsub].
  split; [vm_compute; reflexivity|]. split; [vm_compute; reflexivity|].
  split; [exact Hstart|]. split; [vm_compute; reflexivity|].
  split; [exact Htitle|]. split; [exact Hgt|].
  rewrite Hsub. split; [reflexivity|]. vm_compute. reflexivity.
Qed.

(** A blank title and an end before the start on one submit: nothing is
    called and both errors are set. *)
Example handleSubmit_both_errors :
  let p := {| appointment := None; initialSlot := None |} in
  let st := {| formData := formData draftBothErrors; errors := ∅ |} in
  handleSubmit p 1762300000000 st = (draftBothErrors, []).
Proof.
  vm_compute. reflexivity.
Qed.

(** *** Editing a field *)

(** A field without an error: the edit leaves the error map alone. *)
Lemma handleInputChange_no_error `{platform : JS.Platform} (f : Field) (value : string) (st : State) :
  hasError (errors st) (fieldName f) = false ->
  errors (handleInputChange f value st) = errors st.
Proof. intros Hno. unfold handleInputChange. simpl. rewrite Hno. reflexivity. Qed.

(** The error under a key survives an edit of any other field. *)
Lemma handleInputChange_frame `{platform : JS.Platform} (f : Field) (value : string) (st : State) (k : string) :
  k <> fieldName f ->
  errors (handleInputChange f value st) !! k = errors st !! k.
Proof.
  intros Hk. unfold handleInputChange. simpl.
  destruct (hasError (errors st) (fieldName f)); [|reflexivity].
  apply lookup_insert_ne. congruence.
Qed.

(** C8.  When the edited field has an error (the map holds a non-empty
    message under the field's name), the edit leaves the field without an
    error, and the entry of the map under every other key is what it
    was. *)
Theorem handleInputChange_clears_only_that_error
    `{platform : JS.Platform} (f : Field) (value : string) (st : State) :
  hasError (errors st) (fieldName f) = true ->
  let st' := handleInputChange f value st in
  hasError (errors st') (fieldName f) = false /\
  (forall k, k <> fieldName f -> errors st' !! k = errors st !! k) /\
  (forall k, k <> fieldName f -> hasError (errors st') k = hasError (errors st) k).
Proof.
  intros Herr st'. split; [|split].
  - subst st'. unfold handleInputChange. simpl. rewrite Herr.
    unfold hasError. rewrite lookup_insert_eq. reflexivity.
  - intros k Hk. apply handleInputChange_frame. exact Hk.
  - intros k Hk. unfold hasError. subst st'.
    rewrite handleInputChange_frame by exact Hk. reflexivity.
Qed.

(** The theorem at [draftBothErrors], the user typing a title: the title
    error goes and the end error stays. *)
Lemma handleInputChange_clears_only_that_error_witness :
  hasError (errors draftBothErrors) "title" = true /\
  let st' := handleInputChange (platform := Latin1HostFacts.host) f_title "Hearing" draftBothErrors in
  hasError (errors st') "title" = false /\
  errors st' !! "end" = Some "End time must be after start time".
Proof.
  split; [reflexivity|].
  pose proof (handleInputChange_clears_only_that_error
                (platform := Latin1HostFacts.host) f_title "Hearing" draftBothErrors eq_refl)
    as (Htitle & Hothers & _).
  split.
  - exact Htitle.
  - rewrite (Hothers "end") by discriminate. reflexivity.
Defined.

End AppointmentFormFacts.

(** ** The calendar view: what a saved record does to the collection *)

Module CalendarViewFacts.
Import CalendarView CalendarViewNotions.

(** The entry at a position after the [map] of the update branch. *)
Lemma replace_lookup (a : Appointment) (l : list Appointment) (i : nat) :
  map (fun apt => if String.eqb (apt_id apt) (apt_id a) then a else apt) l !! i =
  (fun x => if decide (apt_id x = apt_id a) then a else x) <$> (l !! i).
Proof.
  revert i. induction l as [|y l IH]; intros [|i]; simpl; try reflexivity.
  - destruct (String.eqb_spec (apt_id y) (apt_id a)); case_decide; congruence.
  - apply IH.
Qed.

Lemma replace_absent (a : Appointment) (l : list Appointment) :
  existsb (fun x => String.eqb (apt_id x) (apt_id a)) l = false ->
  map (fun x => if String.eqb (apt_id x) (apt_id a) then a else x) l = l.
Proof.
  induction l as [|y l IH]; simpl; [reflexivity|].
  rewrite orb_false_iff. intros [Hy Hl]. rewrite Hy, IH by assumption. reflexivity.
Qed.

(** The view and the spec's reading agree exactly when the editor's mode
    and the presence of the id agree: an entry is selected and its id is
    in the collection, or none is selected and the id is new. *)
Lemma handleSaveAppointment_upsert (a : Appointment) (st : State) :
  (is_Some (selectedAppointment st) <->
   exists x, In x (appointments st) /\ apt_id x = apt_id a) ->
  appointments (handleSaveAppointment a st) = upsertById a (appointments st).
Proof.
  intros Hmode. unfold handleSaveAppointment, upsertById. simpl.
  destruct (existsb _ (appointments st)) eqn:Ex.
  - assert (is_Some (selectedAppointment st)) as [s Hsel].
    { apply Hmode. apply existsb_exists in Ex as [x [Hin Hx]].
      exists x. split; [exact Hin | apply String.eqb_eq; exact Hx]. }
    rewrite Hsel. reflexivity.
  - destruct (selectedAppointment st) as [s|] eqn:Hsel; [|reflexivity].
    exfalso. destruct Hmode as [Hmode _].
    destruct (Hmode (ex_intro _ s eq_refl)) as [x [Hin Hx]].
    assert (existsb (fun x => String.eqb (apt_id x) (apt_id a)) (appointments st) = true)
      as Habs; [|congruence].
    apply existsb_exists. exists x. split; [exact Hin | apply String.eqb_eq; exact Hx].
Qed.

(** C2, as the code has it.  The branch is taken on the editor's mode,
    not on the ids present.  With an entry selected (edit mode) the
    collection keeps its length and its order, each entry whose id is the
    saved record's id becomes the saved record, and every other entry
    stays as it was, so nothing is appended.  With no entry selected
    (create mode) every entry stays where it was and the saved record is
    added once, at the end, whatever ids are present. *)
Theorem handleSaveAppointment_by_mode (a : Appointment) (st : State) :
  let before := appointments st in
  let after := appointments (handleSaveAppointment a st) in
  match selectedAppointment st with
  | Some _ =>
      length after = length before /\
      forall i : nat, after !! i =
        (fun x => if decide (apt_id x = apt_id a) then a else x) <$> (before !! i)
  | None =>
      length after = S (length before) /\
      (forall (i : nat) x, before !! i = Some x -> after !! i = Some x) /\
      after !! length before = Some a
  end.
Proof.
  unfold handleSaveAppointment. simpl.
  destruct (selectedAppointment st) as [s|].
  - split; [apply length_map | apply replace_lookup].
  - split; [|split].
    + rewrite length_app. simpl. lia.
    + intros i x Hi. apply lookup_app_l_Some. exact Hi.
    + rewrite lookup_app_r by lia. rewrite Nat.sub_diag. reflexivity.
Qed.

(** C2 as stated fails: the editor, opened on an empty slot at the clock
    reading [createdEarlier] was created at, hands over a record with the
    id of [createdEarlier]; the entry with that id is present, and the
    view appends the record next to it instead of replacing it. *)
Lemma handleSaveAppointment_same_clock_reading :
  let a := appointmentToSave_at_same_reading in
  (AppointmentForm.handleSubmit (formProps creating) 1762300000000
     AppointmentFormNotions.draftOk).2 = [AppointmentForm.onSave a] /\
  apt_id a = apt_id createdEarlier /\
  a <> createdEarlier /\
  appointments (handleSaveAppointment a creating) = [createdEarlier; a] /\
  upsertById a (appointments creating) = [a].
Proof.
  simpl. split; [reflexivity|]. split; [reflexivity|].
  split; [discriminate|]. split; reflexivity.
Qed.

End CalendarViewFacts.

(** ** The document store *)

Module DocumentContextFacts.
Import DocumentContext DocumentContextNotions.

Lemma selectedIs_true (sel : option Document) (id : string) :
  selectedIs sel id = true <-> exists d, sel = Some d /\ doc_id d = id.
Proof.
  destruct sel as [d|]; simpl.
  - rewrite String.eqb_eq. split.
    + intros Hid. exists d. split; [reflexivity | exact Hid].
    + intros [d' [Hd Hid]]. injection Hd as ->. exact Hid.
  - split; [discriminate | intros [d [Hd _]]; discriminate].
Qed.

(** Deleting never adds a record, and keeps the order of the rest. *)
Lemma deleteDocument_sublist (id : string) (st : State) :
  sublist (documents (deleteDocument id st)) (documents st).
Proof. apply sublist_filter. Qed.

(** C4.  After [deleteDocument id] the collection holds exactly the
    records it held whose id is not [id], in their order; the selection
    is cleared when the selected document has the id [id], and is what it
    was otherwise, also when nothing was selected. *)
Theorem deleteDocument_removes_and_clears (id : string) (st : State) :
  let st' := deleteDocument id st in
  (forall d, d ∈ documents st' <-> d ∈ documents st /\ doc_id d <> id) /\
  sublist (documents st') (documents st) /\
  selectedDocument st' =
    match selectedDocument st with
    | Some d => if decide (doc_id d = id) then None else Some d
    | None => None
    end.
Proof.
  intros st'. split; [|split].
  - intros d. subst st'. unfold deleteDocument. simpl.
    rewrite list_elem_of_filter. tauto.
  - apply deleteDocument_sublist.
  - subst st'. unfold deleteDocument. simpl.
    destruct (selectedDocument st) as [d|]; simpl; [|reflexivity].
    destruct (String.eqb_spec (doc_id d) id); case_decide; congruence.
Qed.

(** On the mock data with document 2 selected: deleting 2 clears the
    selection, deleting 3 keeps it. *)
Example deleteDocument_mock :
  let doc2 := nth 1 mockDocuments (mkDocument "" "" "" "" "" None None "" None) in
  let st := setSelectedDocument (Some doc2) initialState in
  selectedDocument (deleteDocument "2" st) = None /\
  map doc_id (documents (deleteDocument "2" st)) = ["1"; "3"; "4"] /\
  selectedDocument (deleteDocument "3" st) = Some doc2 /\
  map doc_id (documents (deleteDocument "3" st)) = ["1"; "2"; "4"].
Proof. vm_compute. repeat split. Qed.

(** *** The hook *)

Lemma useContext_None (ancestors : list Ancestor) :
  useContext ancestors = None <-> ~ insideProvider ancestors.
Proof.
  unfold insideProvider. induction ancestors as [|a rest IH]; simpl.
  - split; [intros _ [v []] | reflexivity].
  - destruct a as [v|].
    + split; [discriminate|]. intros Hno. exfalso. apply Hno. exists v. left. reflexivity.
    + rewrite IH. split.
      * intros Hno [v [Hv|Hv]]; [discriminate | apply Hno; exists v; exact Hv].
      * intros Hno [v Hv]. apply Hno. exists v. right. exact Hv.
Qed.

Lemma useContext_Some (ancestors : list Ancestor) :
  is_Some (useContext ancestors) <-> insideProvider ancestors.
Proof.
  unfold insideProvider. induction ancestors as [|a rest IH]; simpl.
  - split; [intros [v Hv]; discriminate | intros [v []]].
  - destruct a as [v|].
    + split; [intros _; exists v; left; reflexivity | intros _; eexists; reflexivity].
    + rewrite IH. split.
      * intros [v Hv]. exists v. right. exact Hv.
      * intros [v [Hv|Hv]]; [discriminate | exists v; exact Hv].
Qed.

(** Under a provider the hook returns the value of the nearest one,
    whatever lies between and above. *)
Lemma useDocuments_nearest (between : nat) (value : State) (above : list Ancestor) :
  useDocuments (repeat Element between ++ DocumentProvider value :: above)
  = Return value.
Proof.
  unfold useDocuments.
  induction between as [|n IH]; simpl; [reflexivity | exact IH].
Qed.

(** C9.  [useDocuments] throws, with its message, exactly when no
    ancestor is a [DocumentProvider], and returns a store exactly when
    one is: outside the provider's scope it always throws, inside it
    never does. *)
Theorem useDocuments_throws_iff_outside (ancestors : list Ancestor) :
  (useDocuments ancestors
   = Throw "useDocuments must be used within a DocumentProvider"
   <-> ~ insideProvider ancestors) /\
  ((exists context, useDocuments ancestors = Return context)
   <-> insideProvider ancestors).
Proof.
  unfold useDocuments.
  pose proof (useContext_None ancestors) as Hnone.
  pose proof (useContext_Some ancestors) as Hsome.
  destruct (useContext ancestors) as [c|].
  - split.
    + split; [discriminate|]. intros Hout. exfalso. apply Hout, Hsome. eexists. reflexivity.
    + split; [intros _; apply Hsome; eexists; reflexivity | intros _; exists c; reflexivity].
  - split.
    + split; [intros _; apply Hnone; reflexivity | reflexivity].
    + split; [intros [c Hc]; discriminate|].
      intros Hin. apply Hsome in Hin as [c Hc]. discriminate.
Qed.

(** The list and the preview under the provider, and the list mounted
    without it. *)
Example useDocuments_mounted :
  useDocuments [Element; Element; DocumentProvider initialState; Element]
  = Return initialState /\
  useDocuments [Element; Element]
  = Throw "useDocuments must be used within a DocumentProvider".
Proof. split; reflexivity. Qed.

End DocumentContextFacts.

(** ** Sorting with a comparator *)

Module SortFacts.
Import JS.

Section Sorting.
Context {A : Type} (comparefn : A -> A -> Number).

Lemma sort_insert_perm (x : A) (l : list A) :
  Permutation (sort_insert comparefn x l) (x :: l).
Proof.
  induction l as [|y l IH]; simpl; [reflexivity|].
  destruct (SortCompare comparefn x y <=? 0)%Z; [reflexivity|].
  rewrite IH. apply perm_swap.
Qed.

(** The sort keeps every element, as often as it occurs. *)
Lemma sort_perm (l : list A) : Permutation (sort comparefn l) l.
Proof.
  induction l as [|x l IH]; simpl; [reflexivity|].
  rewrite sort_insert_perm, IH. reflexivity.
Qed.

(** An order [R] the comparator decides on the elements that satisfy
    [P], total and transitive there. *)
Context (P : A -> Prop) (R : A -> A -> Prop).
Hypothesis decides : forall x y, P x -> P y ->
  ((SortCompare comparefn x y <= 0)%Z <-> R x y).
Hypothesis total : forall x y, P x -> P y -> R x y \/ R y x.
Hypothesis trans : forall x y z, P x -> P y -> P z -> R x y -> R y z -> R x z.

Lemma sort_insert_sorted (x : A) (l : list A) :
  P x -> Forall P l -> StronglySorted R l ->
  StronglySorted R (sort_insert comparefn x l).
Proof.
  intros Hx Hl Hs. induction Hs as [|y l Hs IH Hy]; simpl.
  - constructor; constructor.
  - apply Forall_cons_1 in Hl as [Py Pl].
    destruct (Z.leb_spec (SortCompare comparefn x y) 0) as [Hle|Hgt].
    + apply decides in Hle; [|assumption..].
      constructor; [constructor; assumption|].
      constructor; [exact Hle|].
      rewrite Forall_forall in Hy, Pl |- *. intros z Hz.
      apply (trans x y z); auto.
    + assert (Ryx : R y x).
      { destruct (total x y Hx Py) as [Hxy|Hyx]; [|exact Hyx].
        apply decides in Hxy; [lia | assumption..]. }
      constructor; [apply IH; exact Pl|].
      rewrite (sort_insert_perm x l). constructor; assumption.
Qed.

(** On elements the comparator orders consistently the result is in
    that order. *)
Lemma sort_sorted (l : list A) :
  Forall P l -> StronglySorted R (sort comparefn l).
Proof.
  induction l as [|x l IH]; simpl; intros Hl.
  - constructor.
  - apply Forall_cons_1 in Hl as [Px Pl].
    apply sort_insert_sorted; [exact Px | | apply IH; exact Pl].
    rewrite (sort_perm l). exact Pl.
Qed.

End Sorting.
End SortFacts.

(** ** The document list: the derived view and the sort state *)

Module DocumentListFacts.
Import DocumentList DocumentListNotions.

Section Derived.
Context `{platform : JS.Platform}.

Lemma includesLower_spec (a b : string) :
  includesLower a b = true <-> containsIgnoringCase a b.
Proof. apply JSFacts.includes_spec. Qed.

Lemma matchesSearch_spec (term : string) (d : Document) :
  matchesSearch term d = true <->
  containsIgnoringCase (doc_name d) term \/
  containsIgnoringCase (doc_uploader d) term \/
  exists c, doc_clientCase d = Some c /\ containsIgnoringCase c term.
Proof.
  unfold matchesSearch. rewrite !orb_true_iff, !includesLower_spec.
  destruct (doc_clientCase d) as [c|].
  - rewrite includesLower_spec. split.
    + intros [[Hn|Hu]|Hc]; [tauto | tauto | right; right; exists c; tauto].
    + intros [Hn|[Hu|[c' [Hc Hin]]]]; [tauto | tauto | injection Hc as ->; tauto].
  - split.
    + intros [[Hn|Hu]|Hc]; [tauto | tauto | discriminate].
    + intros [Hn|[Hu|[c' [Hc _]]]]; [tauto | tauto | discriminate].
Qed.

Lemma matchesType_spec (filter : string) (d : Document) :
  matchesType filter d = true <-> filter = "all" \/ doc_type d = filter.
Proof. unfold matchesType. rewrite orb_true_iff, !String.eqb_eq. reflexivity. Qed.

Lemma localeCompare_ge (a b : string) :
  (- JS.localeCompare a b <= 0)%Z <-> (JS.localeCompare b a <= 0)%Z.
Proof. pose proof (JS.localeCompare_antisym a b). lia. Qed.

Lemma localeCompare_total (a b : string) :
  (JS.localeCompare a b <= 0)%Z \/ (JS.localeCompare b a <= 0)%Z.
Proof. pose proof (JS.localeCompare_antisym a b). lia. Qed.

(** The comparator handed to [sort] decides [inOrder]. *)
Lemma comparator_decides (key : SortKey) (order : SortOrder) (a b : Document) :
  ordered key a -> ordered key b ->
  ((JS.SortCompare (comparator key order) a b <= 0)%Z <-> inOrder key order a b).
Proof.
  unfold JS.SortCompare, comparator, comparison, inOrder, keyLe, ordered, validUploadDate.
  destruct key, order; simpl; intros Ha Hb;
    try reflexivity; try apply localeCompare_ge.
  - destruct Ha as [ta ->], Hb as [tb ->]. simpl. lia.
  - destruct Ha as [ta ->], Hb as [tb ->]. simpl. lia.
Qed.

Lemma keyLe_total (key : SortKey) (a b : Document) :
  ordered key a -> ordered key b -> keyLe key a b \/ keyLe key b a.
Proof.
  unfold keyLe, ordered, validUploadDate. destruct key; intros Ha Hb;
    try apply localeCompare_total.
  destruct Ha as [ta ->], Hb as [tb ->]. lia.
Qed.

Lemma keyLe_trans (key : SortKey) (a b c : Document) :
  ordered key a -> ordered key b -> ordered key c ->
  keyLe key a b -> keyLe key b c -> keyLe key a c.
Proof.
  unfold keyLe, ordered, validUploadDate. destruct key; intros Ha Hb Hc;
    try apply JS.localeCompare_trans.
  destruct Ha as [ta ->], Hb as [tb ->], Hc as [tc ->]. lia.
Qed.

Lemma inOrder_total (key : SortKey) (order : SortOrder) (a b : Document) :
  ordered key a -> ordered key b -> inOrder key order a b \/ inOrder key order b a.
Proof.
  intros Ha Hb. destruct order; simpl;
    [apply keyLe_total | apply or_comm, keyLe_total]; assumption.
Qed.

Lemma inOrder_trans (key : SortKey) (order : SortOrder) (a b c : Document) :
  ordered key a -> ordered key b -> ordered key c ->
  inOrder key order a b -> inOrder key order b c -> inOrder key order a c.
Proof.
  intros Ha Hb Hc. destruct order; simpl.
  - apply keyLe_trans; assumption.
  - intros Hba Hcb. apply (keyLe_trans key c b a); assumption.
Qed.

(** The result holds the matching records and nothing else. *)
Lemma filteredDocuments_perm (documents : list Document) (st : State) :
  Permutation (filteredDocuments documents st)
    (List.filter (fun doc => matchesSearch (searchTerm st) doc &&
                             matchesType (filterType st) doc) documents).
Proof. apply SortFacts.sort_perm. Qed.

(** C3.  On a collection whose upload dates parse (needed only under the
    date key), the derived list holds exactly the records of the
    collection whose name, uploader or client case contains the search
    term when case is ignored and whose type is the filter unless the
    filter is "all", each as often as the collection holds it, and it is
    ordered by the key: by [localeCompare] on the name or on the
    uploader, by time on the upload date, ascending or descending as
    chosen. *)
Theorem filteredDocuments_matching_sorted (documents : list Document) (st : State) :
  (sortBy st = by_date -> Forall validUploadDate documents) ->
  let result := filteredDocuments documents st in
  (forall d, In d result <->
     In d documents /\
     (containsIgnoringCase (doc_name d) (searchTerm st) \/
      containsIgnoringCase (doc_uploader d) (searchTerm st) \/
      exists c, doc_clientCase d = Some c /\ containsIgnoringCase c (searchTerm st)) /\
     (filterType st = "all" \/ doc_type d = filterType st)) /\
  Permutation result
    (List.filter (fun doc => matchesSearch (searchTerm st) doc &&
                             matchesType (filterType st) doc) documents) /\
  StronglySorted (inOrder (sortBy st) (sortOrder st)) result.
Proof.
  intros Hdates result. split; [|split].
  - intros d. subst result.
    pose proof (filteredDocuments_perm documents st) as Hperm.
    split.
    + intros Hd. apply (Permutation_in _ Hperm) in Hd.
      apply filter_In in Hd as [Hin Hm]. apply andb_true_iff in Hm as [Hs Ht].
      split; [exact Hin|].
      split; [apply matchesSearch_spec; exact Hs | apply matchesType_spec; exact Ht].
    + intros [Hin [Hs Ht]]. apply (Permutation_in _ (Permutation_sym Hperm)).
      apply filter_In. split; [exact Hin|]. apply andb_true_iff.
      split; [apply matchesSearch_spec | apply matchesType_spec]; assumption.
  - apply filteredDocuments_perm.
  - subst result. unfold filteredDocuments.
    apply (SortFacts.sort_sorted _ (ordered (sortBy st))).
    + intros x y. apply comparator_decides.
    + intros x y. apply inOrder_total.
    + intros x y z. apply inOrder_trans.
    + apply List.Forall_forall. intros d Hd. apply filter_In in Hd as [Hd _].
      unfold ordered. destruct (sortBy st) eqn:Hkey; try exact I.
      specialize (Hdates eq_refl). rewrite List.Forall_forall in Hdates.
      apply Hdates. exact Hd.
Qed.

(** C10.  With the empty search term every record passes the search, so
    the derived list is the sort of the records that pass the type
    filter alone. *)
Theorem filteredDocuments_empty_search
    (documents : list Document) (key : SortKey) (order : SortOrder) (filter : string) :
  (forall d, matchesSearch "" d = true) /\
  filteredDocuments documents
    {| searchTerm := ""; sortBy := key; sortOrder := order; filterType := filter |}
  = JS.sort (comparator key order)
            (List.filter (fun doc => matchesType filter doc) documents).
Proof.
  assert (Hall : forall d, matchesSearch "" d = true).
  { intros d. unfold matchesSearch, includesLower.
    rewrite JS.toLowerCase_empty, JSFacts.includes_empty. reflexivity. }
  split; [exact Hall|].
  unfold filteredDocuments. simpl. f_equal.
  apply filter_ext. intros d. rewrite Hall. reflexivity.
Qed.

End Derived.

(** The theorem on the mock data with the search [searchSmith], under
    the example host: the upload dates parse, the derived list is
    document 2 then document 1, and it is ordered newest first. *)
Lemma filteredDocuments_matching_sorted_witness :
  Forall (validUploadDate (platform := Latin1HostFacts.host)) DocumentContext.mockDocuments /\
  map doc_id (filteredDocuments (platform := Latin1HostFacts.host)
                DocumentContext.mockDocuments searchSmith) = ["2"; "1"] /\
  StronglySorted (inOrder (platform := Latin1HostFacts.host) by_date desc)
    (filteredDocuments (platform := Latin1HostFacts.host) DocumentContext.mockDocuments searchSmith).
Proof.
  assert (Hvalid : Forall (validUploadDate (platform := Latin1HostFacts.host))
                          DocumentContext.mockDocuments).
  { repeat constructor; eexists; vm_compute; reflexivity. }
  split; [exact Hvalid|]. split; [vm_compute; reflexivity|].
  apply (filteredDocuments_matching_sorted (platform := Latin1HostFacts.host)
           DocumentContext.mockDocuments searchSmith (fun _ => Hvalid)).
Defined.

(** *** The sort state *)

Lemma SortKey_eqb_eq (a b : SortKey) : SortKey_eqb a b = true <-> a = b.
Proof. destruct a, b; simpl; split; congruence. Qed.

(** C7.  A click on the column of the active key keeps the key and turns
    the direction over; a click on another column makes that column the
    key and the direction ascending.  The search term and the type
    filter are not touched. *)
Theorem handleSort_toggles_or_switches (field : SortKey) (st : State) :
  let st' := handleSort field st in
  sortBy st' = field /\
  sortOrder st' = (if decide (field = sortBy st) then toggle (sortOrder st) else asc) /\
  searchTerm st' = searchTerm st /\
  filterType st' = filterType st.
Proof.
  intros st'. subst st'. unfold handleSort.
  destruct (SortKey_eqb (sortBy st) field) eqn:Heq.
  - apply SortKey_eqb_eq in Heq. simpl. rewrite Heq.
    rewrite decide_True by reflexivity.
    split; [reflexivity|]. split; [|split; reflexivity].
    destruct (sortOrder st); reflexivity.
  - assert (Hne : field <> sortBy st).
    { intros ->. rewrite (proj2 (SortKey_eqb_eq _ _) eq_refl) in Heq. discriminate. }
    simpl. rewrite decide_False by exact Hne. repeat split.
Qed.

(** Two clicks on the active column give the state back. *)
Lemma handleSort_twice (st : State) :
  handleSort (sortBy st) (handleSort (sortBy st) st) = st.
Proof.
  unfold handleSort. rewrite (proj2 (SortKey_eqb_eq _ _) eq_refl). simpl.
  rewrite (proj2 (SortKey_eqb_eq _ _) eq_refl).
  destruct st as [term key order filter]. simpl. destruct order; reflexivity.
Qed.

(** From the initial state (date, newest first): a click on the name
    column sorts by name ascending, a second one descending. *)
Example handleSort_initial :
  handleSort by_name initialState
  = {| searchTerm := ""; sortBy := by_name; sortOrder := asc; filterType := "all" |} /\
  handleSort by_name (handleSort by_name initialState)
  = {| searchTerm := ""; sortBy := by_name; sortOrder := desc; filterType := "all" |} /\
  handleSort by_date initialState
  = {| searchTerm := ""; sortBy := by_date; sortOrder := asc; filterType := "all" |}.
Proof. repeat split. Qed.

End DocumentListFacts.

(** ** The upload flow: the record a finished upload inserts *)

Module DocumentUploadFacts.
Import DocumentUpload DocumentUploadNotions.

Lemma split_not_nil (sep : ascii) (s : string) : JS.split sep s <> [].
Proof.
  induction s as [|c s IH]; simpl; [discriminate|].
  destruct (Ascii.eqb c sep); [discriminate|].
  destruct (JS.split sep s); discriminate.
Qed.

(** [split] loses nothing: joining the pieces gives the string back. *)
Lemma join_split (sep : ascii) (s : string) : join sep (JS.split sep s) = s.
Proof.
  induction s as [|c s IH]; simpl; [reflexivity|].
  destruct (Ascii.eqb_spec c sep) as [->|Hne].
  - pose proof (split_not_nil sep s) as Hnn.
    destruct (JS.split sep s) as [|p ps]; [congruence|].
    simpl in *. rewrite IH. reflexivity.
  - pose proof (split_not_nil sep s) as Hnn.
    destruct (JS.split sep s) as [|p ps]; [congruence|].
    destruct ps as [|q ps]; simpl in *; rewrite <- IH; reflexivity.
Qed.

Example split_tags :
  JS.split "," "Contract, Client ,,Court Filing"
  = ["Contract"; " Client "; ""; "Court Filing"] /\
  map JS.trim (JS.split "," "Contract, Client ,,Court Filing")
  = ["Contract"; "Client"; ""; "Court Filing"] /\
  JS.split "," "" = [""].
Proof. repeat split. Qed.

Lemma tickEntry_documents env metadata uploadFile uf acc :
  DocumentContext.documents (tickEntry env metadata uploadFile uf acc).2.1 =
  ((if completes uploadFile uf then [newDocument env metadata uploadFile] else [])
   ++ DocumentContext.documents acc.1)%list.
Proof.
  unfold tickEntry, completes.
  destruct (String.eqb (id uf) (id uploadFile)); simpl; [|reflexivity].
  destruct (Z.eqb_spec (Z.min (progress uf + 10) 100) 100) as [Heq|Hne];
    destruct (Z.leb_spec 90 (progress uf)); simpl; try reflexivity; lia.
Qed.

(** What a simulateUploadTick does to the store: one copy of the new record in front
    for each entry it completes, and the documents that were there. *)
Lemma tickMap_documents env metadata uploadFile prev acc :
  DocumentContext.documents (tickMap env metadata uploadFile prev acc).2.1 =
  (repeat (newDocument env metadata uploadFile)
          (length (List.filter (completes uploadFile) prev))
   ++ DocumentContext.documents acc.1)%list.
Proof.
  revert acc. induction prev as [|uf rest IH]; intros acc; simpl; [reflexivity|].
  destruct (tickEntry env metadata uploadFile uf acc) as [uf' acc'] eqn:Entry.
  specialize (IH acc').
  destruct (tickMap env metadata uploadFile rest acc') as [rest' acc''] eqn:Rest.
  simpl in *. rewrite IH.
  pose proof (tickEntry_documents env metadata uploadFile uf acc) as Hdocs.
  rewrite Entry in Hdocs. simpl in Hdocs. rewrite Hdocs.
  destruct (completes uploadFile uf); simpl; [|reflexivity].
  rewrite app_comm_cons, repeat_cons, <- app_assoc. reflexivity.
Qed.

Lemma simulateUploadTick_documents env metadata uploadFile st :
  DocumentContext.documents (store (simulateUploadTick env metadata uploadFile st)) =
  (repeat (newDocument env metadata uploadFile)
          (length (List.filter (completes uploadFile) (uploadFiles st)))
   ++ DocumentContext.documents (store st))%list.
Proof.
  unfold simulateUploadTick.
  pose proof (tickMap_documents env metadata uploadFile (uploadFiles st)
                (store st, running st)) as Hdocs.
  destruct (tickMap env metadata uploadFile (uploadFiles st) (store st, running st))
    as [files [docs run]].
  exact Hdocs.
Qed.

Lemma fileType_cases (f : File) :
  (occursIn "pdf" (file_type f) -> fileType f = "pdf") /\
  (~ occursIn "pdf" (file_type f) -> occursIn "image" (file_type f) ->
     fileType f = "image") /\
  (~ occursIn "pdf" (file_type f) -> ~ occursIn "image" (file_type f) ->
     fileType f = "docx").
Proof.
  unfold fileType, occursIn.
  pose proof (JSFacts.includes_spec (file_type f) "pdf") as Hpdf.
  pose proof (JSFacts.includes_spec (file_type f) "image") as Himage.
  destruct (JS.includes (file_type f) "pdf"), (JS.includes (file_type f) "image");
    intuition congruence.
Qed.

(** C5, as the code has it.  When the tick of an upload takes one of its
    entries to 100, the store afterwards holds the new record, in front
    of the documents it held, and nothing else is new.  The record's type
    is "pdf" if the file's declared type contains "pdf", else "image" if
    it contains "image", else "docx"; its tags are the pieces of the
    tags string between the commas, each trimmed, when the tags string is
    not empty, and no tags at all when it is empty; its client case is
    absent exactly when the client case entered is the empty string,
    and is otherwise the client case as it was entered, untrimmed, also
    when that is nothing but white space. *)
Theorem simulateUpload_inserts_classified_record
    (env : Env) (metadata : Metadata) (uploadFile uf : UploadFile) (st : State) :
  In uf (uploadFiles st) ->
  id uf = id uploadFile ->
  Z.min (progress uf + 10) 100 = 100 ->
  let d := newDocument env metadata uploadFile in
  let after := DocumentContext.documents (store (simulateUploadTick env metadata uploadFile st)) in
  (exists n, after = (repeat d (S n) ++ DocumentContext.documents (store st))%list) /\
  (occursIn "pdf" (file_type (file uploadFile)) -> doc_type d = "pdf") /\
  (~ occursIn "pdf" (file_type (file uploadFile)) ->
   occursIn "image" (file_type (file uploadFile)) -> doc_type d = "image") /\
  (~ occursIn "pdf" (file_type (file uploadFile)) ->
   ~ occursIn "image" (file_type (file uploadFile)) -> doc_type d = "docx") /\
  doc_tags d = Some (if decide (tags metadata = "") then []
                     else map JS.trim (JS.split "," (tags metadata))) /\
  doc_clientCase d = (if decide (clientCase metadata = "") then None
                      else Some (clientCase metadata)) /\
  doc_id d = id uploadFile /\
  doc_name d = file_name (file uploadFile) /\
  doc_uploader d = uploader metadata /\
  doc_fileSize d = Some (file_size (file uploadFile)).
Proof.
  intros Hin Hid Hfull d after.
  split.
  - subst after. rewrite simulateUploadTick_documents.
    assert (Hc : In uf (List.filter (completes uploadFile) (uploadFiles st))).
    { apply filter_In. split; [exact Hin|]. unfold completes.
      rewrite Hid, String.eqb_refl. simpl. apply Z.leb_le. lia. }
    destruct (List.filter (completes uploadFile) (uploadFiles st)) as [|x rest];
      [destruct Hc|].
    exists (length rest). reflexivity.
  - destruct (fileType_cases (file uploadFile)) as (Hpdf & Himage & Hdocx).
    split; [exact Hpdf|]. split; [exact Himage|]. split; [exact Hdocx|].
    subst d. unfold newDocument. simpl.
    split.
    { destruct (decide (tags metadata = "")) as [He|Hne].
      - rewrite He. reflexivity.
      - apply JSFacts.truthy_true in Hne. rewrite Hne. reflexivity. }
    split.
    { destruct (decide (clientCase metadata = "")) as [He|Hne].
      - rewrite He. reflexivity.
      - apply JSFacts.truthy_true in Hne. rewrite Hne. reflexivity. }
    repeat split.
Qed.

(** The theorem at [uploadingAgreement]: the store gets the record in
    front, typed "pdf", with the two tags trimmed and no client case. *)
Lemma simulateUpload_inserts_classified_record_witness :
  In agreement (uploadFiles uploadingAgreement) /\
  Z.min (progress agreement + 10) 100 = 100 /\
  (exists n,
     DocumentContext.documents (store (simulateUploadTick browser twoTags agreement uploadingAgreement))
     = (repeat (newDocument browser twoTags agreement) (S n)
        ++ DocumentContext.mockDocuments)%list) /\
  newDocument browser twoTags agreement
  = {| doc_id := "1762300000000-0.42"; doc_name := "agreement.pdf";
       doc_type := "pdf"; doc_uploadDate := "2025-11-05";
       doc_uploader := "Current User"; doc_tags := Some ["Contract"; "Client"];
       doc_clientCase := None; doc_fileUrl := "blob:agreement.pdf";
       doc_fileSize := Some 245000 |}.
Proof.
  split; [left; reflexivity|]. split; [reflexivity|].
  split; [|reflexivity].
  apply (simulateUpload_inserts_classified_record browser twoTags agreement agreement
           uploadingAgreement (or_introl eq_refl) eq_refl eq_refl).
Defined.

(** C5 as stated fails twice on [spaceAsCase].  On the tags: with the
    tags field left empty the record has no tags, while the empty string
    split on commas is one empty piece.  On the client case: the one
    space entered is blank (it trims to the empty string), yet the
    record's client case is not absent, it is that space. *)
Lemma newDocument_empty_tags_blank_clientCase :
  let d := newDocument browser spaceAsCase agreement in
  tags spaceAsCase = "" /\
  doc_tags d = Some [] /\
  map JS.trim (JS.split "," (tags spaceAsCase)) = [""] /\
  JS.trim (clientCase spaceAsCase) = "" /\
  doc_clientCase d = Some " " /\
  doc_clientCase d <> None /\
  In d (DocumentContext.documents
          (store (simulateUploadTick browser spaceAsCase agreement uploadingAgreement))).
Proof.
  intros d.
  split; [reflexivity|]. split; [reflexivity|]. split; [reflexivity|].
  split; [reflexivity|]. split; [reflexivity|]. split; [discriminate|].
  left. reflexivity.
Qed.

(** With nothing typed into the metadata form the record has no tags
    and no client case. *)
Example newDocument_initialMetadata :
  doc_tags (newDocument browser initialMetadata agreement) = Some [] /\
  doc_clientCase (newDocument browser initialMetadata agreement) = None.
Proof. split; reflexivity. Qed.

(** The scenario of the spec: the three declared types. *)
Example fileType_scenario :
  fileType {| file_name := "a"; file_type := "application/pdf"; file_size := 1 |} = "pdf" /\
  fileType {| file_name := "b"; file_type := "image/png"; file_size := 1 |} = "image" /\
  fileType {| file_name := "c"; file_type := "application/msword"; file_size := 1 |} = "docx".
Proof. repeat split. Qed.

End DocumentUploadFacts.

(** ** The preview: the zoom level *)

Module DocumentPreviewFacts.
Import DocumentPreview DocumentPreviewNotions.
Local Open Scope float_scope.

Ltac find_scale :=
  vm_compute; repeat (first [left; reflexivity | right]).

Lemma scales_stepsWithin : Forall stepsWithin scales.
Proof.
  unfold scales.
  repeat (apply List.Forall_cons;
          [ split; [vm_compute; reflexivity|];
            split; [vm_compute; reflexivity|];
            split; [vm_compute; reflexivity|];
            split; [vm_compute; reflexivity|];
            split; find_scale
          | ]).
  apply List.Forall_nil.
Qed.

Lemma scale_handleZoom (z : Zoom) (st : State) :
  scale (handleZoom z st) =
  match z with ZoomIn => zoomIn (scale st) | ZoomOut => zoomOut (scale st) end.
Proof. destruct z; reflexivity. Qed.

(** Every sequence of clicks keeps the zoom level in [scales]. *)
Lemma run_in_scales (zs : list Zoom) (st : State) :
  In (scale st) scales -> In (scale (run zs st)) scales.
Proof.
  revert st. induction zs as [|z zs IH]; intros st Hst; simpl; [exact Hst|].
  apply IH. rewrite scale_handleZoom.
  pose proof scales_stepsWithin as Hall. rewrite List.Forall_forall in Hall.
  destruct (Hall _ Hst) as (_ & _ & _ & _ & Hin & Hout).
  destruct z; assumption.
Qed.

Lemma initial_in_scales : In (scale initialState) scales.
Proof. find_scale. Qed.

Lemma run_repeat_ZoomIn_ceiling (k : nat) (st : State) :
  scale st = 3.0 -> scale (run (repeat ZoomIn k) st) = 3.0.
Proof.
  revert st. induction k as [|k IH]; intros st Hst; simpl; [exact Hst|].
  apply IH. simpl. rewrite Hst. reflexivity.
Qed.

Lemma run_app (zs1 zs2 : list Zoom) (st : State) :
  run (zs1 ++ zs2) st = run zs2 (run zs1 st).
Proof. apply fold_left_app. Qed.

(** C6.  The zoom level starts at 1.0.  After any sequence of zoom-in
    and zoom-out clicks it is at least 0.5 and at most 3.0, and the next
    click adds or takes 0.2 unless that would pass 3.0 or 0.5, where it
    gives 3.0 or 0.5.  Zooming in from 1.0 goes through 1.2, 1.4, ... (as
    binary64 sums) and is 3.0 after the tenth click and after every
    click beyond it. *)
Theorem zoom_clamped :
  scale initialState = 1.0 /\
  (forall zs : list Zoom,
     let s := scale (run zs initialState) in
     (0.5 <=? s) = true /\ (s <=? 3.0) = true /\
     scale (handleZoomIn (run zs initialState))
     = (if s + 0.2 <=? 3.0 then s + 0.2 else 3.0) /\
     scale (handleZoomOut (run zs initialState))
     = (if 0.5 <=? s - 0.2 then s - 0.2 else 0.5)) /\
  map (fun n => scale (run (repeat ZoomIn n) initialState)) (seq 0 11)
  = [1.0; 1.2; 1.4; 1.5999999999999999; 1.7999999999999998; 1.9999999999999998;
     2.1999999999999997; 2.4; 2.6; 2.8000000000000003; 3.0] /\
  (forall k : nat, scale (run (repeat ZoomIn (10 + k)) initialState) = 3.0).
Proof.
  split; [reflexivity|]. split; [|split].
  - intros zs s.
    pose proof (run_in_scales zs initialState initial_in_scales) as Hin.
    pose proof scales_stepsWithin as Hall. rewrite List.Forall_forall in Hall.
    destruct (Hall _ Hin) as (Hlow & Hhigh & Hzin & Hzout & _).
    auto.
  - vm_compute. reflexivity.
  - intros k. rewrite repeat_app, run_app.
    apply run_repeat_ZoomIn_ceiling. vm_compute. reflexivity.
Qed.

(** Zooming out from 1.0 reaches the floor at the third click. *)
Example zoom_out_floor :
  map (fun n => scale (run (repeat ZoomOut n) initialState)) (seq 0 5)
  = [1.0; 0.8; 0.6000000000000001; 0.5; 0.5].
Proof. vm_compute. reflexivity. Qed.

End DocumentPreviewFacts.

(** ** The editor from opening to submit *)

Module EditorFlowFacts.
Import AppointmentForm.

(** The editor never hands over a record with the empty id. *)
Lemma appointmentToSave_id_nonempty (p : Props) (now : Z) (fd : FormData) :
  apt_id (appointmentToSave p now fd) <> "".
Proof.
  unfold appointmentToSave. simpl.
  destruct (appointment p) as [a|]; [|discriminate].
  destruct (JS.truthy (apt_id a)) eqn:Hid; [|discriminate].
  apply JSFacts.truthy_true. exact Hid.
Qed.

(** The calls of a submit: one [onSave] with the record built from the
    draft, or none. *)
Lemma handleSubmit_calls (p : Props) (now : Z) (st : State) (a : Appointment) :
  (handleSubmit p now st).2 = [onSave a] ->
  a = appointmentToSave p now (formData st).
Proof.
  rewrite AppointmentFormFacts.handleSubmit_unfold. simpl.
  destruct (Nat.eqb (size (newErrors (formData st))) 0); [|discriminate].
  intros Hcalls. injection Hcalls as <-. reflexivity.
Qed.

(** X1.  An existing appointment with a non-empty id, a title that is
    not blank, and a valid start before a valid end, opened in the
    editor and submitted untouched, is handed back under its id with
    its title, times and type; an absent client, case reference,
    location or note comes back as the empty string and an absent or
    empty reminder as "1hour".  With all of them present the record
    handed back is the appointment itself. *)
Theorem edit_untouched_saves_same_record
    (a : Appointment) (slotInfo : option Slot) (now : Z) (st0 : State) (s e : Z) :
  apt_id a <> "" ->
  JS.trim (apt_title a) <> "" ->
  apt_start a = Some s -> apt_end a = Some e -> s < e ->
  let p := {| appointment := Some a; initialSlot := slotInfo |} in
  let normal :=
    {| apt_id := apt_id a; apt_title := apt_title a;
       apt_start := apt_start a; apt_end := apt_end a; apt_type := apt_type a;
       apt_client := Some (orEmpty (apt_client a));
       apt_caseReference := Some (orEmpty (apt_caseReference a));
       apt_location := Some (orEmpty (apt_location a));
       apt_notes := Some (orEmpty (apt_notes a));
       apt_reminder := Some (orDefault "1hour" (apt_reminder a)) |} in
  (handleSubmit p now (seed p st0)).2 = [onSave normal] /\
  (is_Some (apt_client a) -> is_Some (apt_caseReference a) ->
   is_Some (apt_location a) -> is_Some (apt_notes a) ->
   (exists r, apt_reminder a = Some r /\ r <> "") ->
   (handleSubmit p now (seed p st0)).2 = [onSave a]).
Proof.
  intros Hid Htitle Hs He Hlt p normal.
  assert (Hcalls : (handleSubmit p now (seed p st0)).2 = [onSave normal]).
  { rewrite AppointmentFormFacts.handleSubmit_unfold.
    assert (Hok : (validate (seed p st0)).2 = true).
    { apply AppointmentFormFacts.validate_true_iff. simpl. split; [exact Htitle|].
      rewrite Hs, He. simpl. apply Z.leb_gt. exact Hlt. }
    rewrite Hok. simpl. unfold appointmentToSave, normal. simpl.
    apply JSFacts.truthy_true in Hid. rewrite Hid. reflexivity. }
  split; [exact Hcalls|].
  intros [c Hc] [cr Hcr] [l Hl] [n Hn] [r [Hr Hrne]].
  rewrite Hcalls. unfold normal. rewrite Hc, Hcr, Hl, Hn, Hr. simpl.
  apply JSFacts.truthy_true in Hrne. rewrite Hrne.
  destruct a; simpl in *; congruence.
Qed.

(** The theorem on the first mock appointment, read in UTC. *)
Lemma edit_untouched_saves_same_record_witness :
  let a := nth 0 (CalendarStyle.mockAppointments
                    (fun y m d h mi => Latin1Host.makeTime y (m + 1) d h mi))
                 AppointmentFormNotions.entryNoId in
  let p := {| appointment := Some a; initialSlot := None |} in
  apt_id a <> "" /\
  (handleSubmit p 1762300005000 (seed p (initialState 1762300000000 1762300000001))).2
  = [onSave a].
Proof.
  intros a p. split; [discriminate|].
  refine (proj2 (edit_untouched_saves_same_record a None 1762300005000
                   (initialState 1762300000000 1762300000001) 1762336800000 1762340400000
                   _ _ eq_refl eq_refl _) _ _ _ _ _).
  - discriminate.
  - vm_compute. discriminate.
  - lia.
  - eexists. reflexivity.
  - eexists. reflexivity.
  - eexists. reflexivity.
  - eexists. reflexivity.
  - exists "1hour". split; [reflexivity | discriminate].
Defined.

(** X2.  The editor opened to create, on a slot or on none, and
    submitted before anything is typed, calls nothing and shows "Title
    is required": the title starts empty. *)
Theorem create_untouched_is_blocked (slotInfo : option Slot) (opened1 opened2 now : Z) :
  let p := {| appointment := None; initialSlot := slotInfo |} in
  let r := handleSubmit p now (seed p (initialState opened1 opened2)) in
  r.2 = [] /\
  errors r.1 !! "title" = Some "Title is required" /\
  formData r.1 = formData (seed p (initialState opened1 opened2)).
Proof.
  intros p r. subst r. rewrite AppointmentFormFacts.handleSubmit_unfold.
  assert (Htitle : title (formData (seed p (initialState opened1 opened2))) = "").
  { subst p. destruct slotInfo; reflexivity. }
  assert (Hok : (validate (seed p (initialState opened1 opened2))).2 = false).
  { destruct ((validate (seed p (initialState opened1 opened2))).2) eqn:Hv; [|reflexivity].
    apply AppointmentFormFacts.validate_true_iff in Hv as [Hne _].
    rewrite Htitle in Hne. exfalso. apply Hne. reflexivity. }
  rewrite Hok. simpl. split; [reflexivity|]. split; [|reflexivity].
  rewrite AppointmentFormFacts.newErrors_title, Htitle. reflexivity.
Qed.

End EditorFlowFacts.

(** ** The calendar view under the widget and the editor *)

Module CalendarAppFacts.
Import CalendarView CalendarApp.

Lemma dispatchAll_nil (st : State) : dispatchAll [] st = st.
Proof. reflexivity. Qed.

Lemma dispatchAll_one (c : AppointmentForm.Call) (st : State) :
  dispatchAll [c] st = dispatch c st.
Proof. reflexivity. Qed.

(** A submit is blocked, or it is one save of the record built from the
    draft. *)
Lemma submit_cases (now : Z) (fs : AppointmentForm.State) (st : State) :
  showModal st = true ->
  step (Submit now fs) st = st \/
  step (Submit now fs) st =
    handleSaveAppointment
      (AppointmentForm.appointmentToSave (formProps st) now (AppointmentForm.formData fs)) st.
Proof.
  intros Hopen. unfold step. rewrite Hopen.
  rewrite AppointmentFormFacts.handleSubmit_unfold. simpl.
  destruct (Nat.eqb _ 0); [right | left]; reflexivity.
Qed.

Lemma Inv_save (a : Appointment) (st : State) :
  apt_id a <> "" -> Inv st -> Inv (handleSaveAppointment a st).
Proof.
  intros Ha (Hids & _ & _ & _). unfold Inv, handleSaveAppointment. simpl.
  split; [|split; [discriminate | split; [left; reflexivity | intros _; split; reflexivity]]].
  intros x Hx. destruct (selectedAppointment st).
  - apply in_map_iff in Hx as [y [Hy Hin]].
    destruct (String.eqb (apt_id y) (apt_id a)); [subst x; exact Ha|].
    subst x. apply Hids. exact Hin.
  - apply in_app_or in Hx as [Hx|[<-|[]]]; [apply Hids; exact Hx | exact Ha].
Qed.

Lemma Inv_step (e : Event) (st : State) : Inv st -> Inv (step e st).
Proof.
  intros HInv. pose proof HInv as (Hids & Hsel & Hexcl & Hclosed).
  destruct e as [slotInfo | i | now fs | confirmed |]; simpl.
  - unfold Inv. simpl. split; [exact Hids|].
    split; [discriminate|]. split; [left; reflexivity | discriminate].
  - destruct (appointments st !! i) as [event|] eqn:Hi; [|exact HInv].
    unfold Inv. simpl. split; [exact Hids|]. split; [|split; [right; reflexivity | discriminate]].
    intros x Hx. injection Hx as <-.
    apply list_elem_of_In. eapply list_elem_of_lookup_2. exact Hi.
  - destruct (showModal st) eqn:Hopen; [|exact HInv].
    destruct (submit_cases now fs st Hopen) as [Hsame|Hsave].
    + unfold step in Hsame. rewrite Hopen in Hsame. rewrite Hsame. exact HInv.
    + unfold step in Hsave. rewrite Hopen in Hsave. rewrite Hsave.
      apply Inv_save; [|exact HInv].
      apply EditorFlowFacts.appointmentToSave_id_nonempty.
  - destruct (showModal st) eqn:Hopen; [|exact HInv].
    unfold AppointmentForm.handleDelete, formProps. simpl.
    destruct (selectedAppointment st) as [a|] eqn:Ha; [|exact HInv].
    destruct confirmed; [|exact HInv].
    rewrite dispatchAll_one. unfold Inv. simpl.
    assert (Hslot : selectedSlot st = None).
    { destruct Hexcl as [Hn|Hn]; [congruence | exact Hn]. }
    split; [|split; [discriminate | split; [left; reflexivity | intros _; split; [reflexivity | exact Hslot]]]].
    intros x Hx. apply list_elem_of_In, list_elem_of_filter in Hx as [_ Hx].
    apply Hids, list_elem_of_In. exact Hx.
  - destruct (showModal st); [|exact HInv].
    unfold Inv. simpl. split; [exact Hids|].
    split; [discriminate|]. split; [left; reflexivity | intros _; split; reflexivity].
Qed.

(** X3.  Whatever the widget and the editor do, and whatever is typed
    into the editor, the view keeps [Inv]: no entry ever has the empty
    id, a selected appointment is always one of the entries, an
    appointment and a slot are never selected together, and nothing
    stays selected once the modal is closed. *)
Theorem run_keeps_Inv (es : list Event) (st : State) :
  Inv st -> Inv (run es st).
Proof.
  revert st. induction es as [|e es IH]; intros st HInv; simpl.
  - exact HInv.
  - apply IH, Inv_step, HInv.
Qed.

Lemma initialState_Inv (local : Z -> Z -> Z -> Z -> Z -> JS.Date) :
  Inv (CalendarStyle.initialState local).
Proof.
  unfold Inv. simpl. split; [|split; [discriminate | split; [left; reflexivity | intros _; split; reflexivity]]].
  intros x [<-|[<-|[<-|[<-|[]]]]]; discriminate.
Qed.

(** The theorem from the mock data: the second entry is opened and
    saved under a new title, then a slot is opened and left. *)
Lemma run_keeps_Inv_witness :
  let local := fun y m d h mi => Latin1Host.makeTime y (m + 1) d h mi in
  Inv (run [SelectEvent 1; Submit 1762300000000 AppointmentFormNotions.draftOk;
            SelectSlot {| slot_start := Some 1762336800000;
                          slot_end := Some 1762340400000 |};
            Close]
           (CalendarStyle.initialState local)).
Proof.
  intros local. apply run_keeps_Inv. apply initialState_Inv.
Defined.

(** X4.  With the modal open, a submit that calls [onSave] ends with the
    record handed over in the collection, the modal closed and neither
    an appointment nor a slot selected: in edit mode the collection
    keeps its length, and in create mode it is one longer. *)
Theorem submit_lands_in_collection
    (now : Z) (fs : AppointmentForm.State) (a : Appointment) (st : State) :
  Inv st ->
  showModal st = true ->
  (AppointmentForm.handleSubmit (formProps st) now fs).2 = [AppointmentForm.onSave a] ->
  let st' := step (Submit now fs) st in
  In a (appointments st') /\
  showModal st' = false /\
  selectedAppointment st' = None /\
  selectedSlot st' = None /\
  length (appointments st') =
    match selectedAppointment st with
    | Some _ => length (appointments st)
    | None => S (length (appointments st))
    end.
Proof.
  intros (Hids & Hsel & _ & _) Hopen Hcalls st'. subst st'.
  unfold step. rewrite Hopen, Hcalls, dispatchAll_one. simpl.
  apply EditorFlowFacts.handleSubmit_calls in Hcalls.
  split; [|split; [reflexivity | split; [reflexivity | split; [reflexivity|]]]].
  - destruct (selectedAppointment st) as [x|] eqn:Hx.
    + apply in_map_iff. exists x. split; [|apply Hsel; reflexivity].
      assert (Hid : apt_id x = apt_id a).
      { rewrite Hcalls. unfold AppointmentForm.appointmentToSave, formProps. simpl.
        rewrite Hx.
        assert (Hne : apt_id x <> "") by (apply Hids, Hsel; reflexivity).
        apply JSFacts.truthy_true in Hne. rewrite Hne. reflexivity. }
      rewrite Hid, String.eqb_refl. reflexivity.
    + apply in_or_app. right. left. reflexivity.
  - destruct (selectedAppointment st); [apply length_map|].
    rewrite length_app. simpl. lia.
Qed.

(** The theorem on the mock data: the second entry, opened and saved
    with the draft [draftOk]. *)
Lemma submit_lands_in_collection_witness :
  let local := fun y m d h mi => Latin1Host.makeTime y (m + 1) d h mi in
  let st := step (SelectEvent 1) (CalendarStyle.initialState local) in
  exists a,
    apt_id a = "2" /\
    In a (appointments (step (Submit 1762300000000 AppointmentFormNotions.draftOk) st)) /\
    length (appointments (step (Submit 1762300000000 AppointmentFormNotions.draftOk) st)) = 4%nat.
Proof.
  intros local st.
  eexists. split; [|split].
  2: { apply (submit_lands_in_collection 1762300000000 AppointmentFormNotions.draftOk _ st).
       - apply Inv_step, initialState_Inv.
       - reflexivity.
       - reflexivity. }
  - reflexivity.
  - reflexivity.
Defined.

(** X5.  The editor's delete button: in create mode, or when the
    confirmation is declined, the view does not change at all; confirmed
    on a selected appointment, exactly the entries with its id go, the
    others keep their order, and the modal closes with no appointment
    selected; the slot selection is left as it was, which is none in a
    view that satisfies the invariant. *)
Theorem delete_removes_selected (st : State) :
  showModal st = true ->
  step (Delete false) st = st /\
  (selectedAppointment st = None -> step (Delete true) st = st) /\
  (forall x, selectedAppointment st = Some x ->
     let st' := step (Delete true) st in
     (forall y, In y (appointments st') <->
                In y (appointments st) /\ apt_id y <> apt_id x) /\
     sublist (appointments st') (appointments st) /\
     showModal st' = false /\ selectedAppointment st' = None /\
     selectedSlot st' = selectedSlot st /\
     (Inv st -> selectedSlot st' = None)).
Proof.
  intros Hopen. unfold step. rewrite Hopen.
  unfold AppointmentForm.handleDelete, formProps. simpl.
  split; [destruct (selectedAppointment st); reflexivity|].
  split; [intros ->; reflexivity|].
  intros x Hx.
  assert (Hslot : Inv st -> selectedSlot st = None).
  { intros (_ & _ & [Hnone | Hnone] & _); [congruence | exact Hnone]. }
  rewrite Hx. simpl.
  split; [|split; [apply sublist_filter
                  | split; [reflexivity | split; [reflexivity
                  | split; [reflexivity | exact Hslot]]]]].
  intros y. rewrite <- !list_elem_of_In, list_elem_of_filter. tauto.
Qed.

(** The theorem on the mock data with the third entry selected. *)
Lemma delete_removes_selected_witness :
  let local := fun y m d h mi => Latin1Host.makeTime y (m + 1) d h mi in
  let st := step (SelectEvent 2) (CalendarStyle.initialState local) in
  showModal st = true /\
  map apt_id (appointments (step (Delete true) st)) = ["1"; "2"; "4"] /\
  step (Delete false) st = st.
Proof.
  intros local st.
  split; [reflexivity|].
  split; [vm_compute; reflexivity|].
  apply (delete_removes_selected st eq_refl).
Defined.

(** X6.  An event is drawn with the accent border and in bold exactly
    when its start is a valid instant strictly after the first clock
    reading and strictly before the second plus 24 hours; otherwise it
    has no border and normal weight.  So border and weight always go
    together, and an event with an Invalid Date start, or one that has
    begun, is never accented. *)
Theorem eventStyleGetter_accent (now1 now2 : Z) (event : Appointment) :
  let style := CalendarStyle.eventStyleGetter now1 now2 event in
  let upcoming := exists s, apt_start event = Some s /\ now1 < s < now2 + 86400000 in
  (upcoming /\
   CalendarStyle.border style = "2px solid #ffc107" /\
   CalendarStyle.fontWeight style = "bold") \/
  (~ upcoming /\
   CalendarStyle.border style = "none" /\
   CalendarStyle.fontWeight style = "normal").
Proof.
  simpl. unfold CalendarStyle.isUpcoming, CalendarStyle.Date_lt, JS.Date_gt.
  destruct (apt_start event) as [s|]; simpl.
  - destruct (Z.ltb_spec now1 s), (Z.ltb_spec s (now2 + 24 * 60 * 60 * 1000)); simpl.
    + left. split; [exists s; split; [reflexivity | lia] | split; reflexivity].
    + right. split; [intros [s' [Hs' Hr]]; injection Hs' as <-; lia | split; reflexivity].
    + right. split; [intros [s' [Hs' Hr]]; injection Hs' as <-; lia | split; reflexivity].
    + right. split; [intros [s' [Hs' Hr]]; injection Hs' as <-; lia | split; reflexivity].
  - right. split; [intros [s' [Hs' _]]; discriminate | split; reflexivity].
Qed.

End CalendarAppFacts.

(** ** The document store: adding and deleting together *)

Module DocumentStoreFacts.
Import DocumentContext.

Lemma filter_all (id : string) (l : list Document) :
  (forall x, In x l -> doc_id x <> id) ->
  filter (fun doc => doc_id doc <> id) l = l.
Proof.
  induction l as [|y l IH]; intros Hall; [reflexivity|].
  rewrite filter_cons_True by (apply Hall; left; reflexivity).
  rewrite IH; [reflexivity|]. intros x Hx. apply Hall. right. exact Hx.
Qed.

Lemma selectedIs_false (sel : option Document) (id : string) :
  selectedIs sel id = false <-> forall d, sel = Some d -> doc_id d <> id.
Proof.
  destruct sel as [d|]; simpl.
  - rewrite String.eqb_neq. split.
    + intros Hne d' Hd'. injection Hd' as <-. exact Hne.
    + intros Hall. apply Hall. reflexivity.
  - split; [intros _ d Hd; discriminate | reflexivity].
Qed.

(** X7.  A record added under an id no record of the collection has,
    then deleted by that id, leaves the store as it was, selection
    included, when the selection (if any) is a record of the
    collection. *)
Theorem add_then_delete (d : Document) (st : State) :
  (forall x, In x (documents st) -> doc_id x <> doc_id d) ->
  (forall s, selectedDocument st = Some s -> In s (documents st)) ->
  deleteDocument (doc_id d) (addDocument d st) = st.
Proof.
  intros Hfresh Hsel. unfold deleteDocument, addDocument. simpl.
  rewrite filter_cons_False by (intros Hne; apply Hne; reflexivity).
  rewrite filter_all by exact Hfresh.
  assert (Hno : selectedIs (selectedDocument st) (doc_id d) = false).
  { apply selectedIs_false. intros s Hs. apply Hfresh, Hsel, Hs. }
  rewrite Hno. destruct st; reflexivity.
Qed.

(** The theorem on the mock store and a record with the id "5". *)
Lemma add_then_delete_witness :
  let d := {| doc_id := "5"; doc_name := "Retainer.pdf"; doc_type := "pdf";
              doc_uploadDate := "2025-11-05"; doc_uploader := "Current User";
              doc_tags := Some []; doc_clientCase := None;
              doc_fileUrl := "blob:retainer"; doc_fileSize := Some 1000 |} in
  deleteDocument "5" (addDocument d initialState) = initialState.
Proof.
  intros d. apply (add_then_delete d initialState).
  - intros x [<-|[<-|[<-|[<-|[]]]]]; discriminate.
  - discriminate.
Defined.

(** X8.  Deleting the same id twice is deleting it once, and two
    deletions give the same store in either order. *)
Theorem delete_idempotent_commutes (a b : string) (st : State) :
  deleteDocument a (deleteDocument a st) = deleteDocument a st /\
  deleteDocument a (deleteDocument b st) = deleteDocument b (deleteDocument a st).
Proof.
  unfold deleteDocument. simpl. split.
  - f_equal.
    + rewrite filter_all; [reflexivity|].
      intros x Hx. apply list_elem_of_In, list_elem_of_filter in Hx as [Hx _]. exact Hx.
    + destruct (selectedIs (selectedDocument st) a) eqn:Ha; [reflexivity|].
      rewrite Ha. reflexivity.
  - f_equal.
    + rewrite !list_filter_filter. apply list_filter_iff. intros x. tauto.
    + destruct (selectedDocument st) as [d|]; simpl; [|reflexivity].
      destruct (String.eqb (doc_id d) a) eqn:Ha, (String.eqb (doc_id d) b) eqn:Hb;
        simpl; rewrite ?Ha, ?Hb; reflexivity.
Qed.

End DocumentStoreFacts.

(** ** The document list: rows, type options and the store behind them *)

Module DocumentListRowsFacts.
Import DocumentList DocumentListRows.

Lemma existsb_eqb_In (x : string) (l : list string) :
  existsb (String.eqb x) l = true <-> In x l.
Proof.
  rewrite existsb_exists. split.
  - intros [y [Hy Heq]]. apply String.eqb_eq in Heq. subst y. exact Hy.
  - intros Hx. exists x. split; [exact Hx | apply String.eqb_refl].
Qed.

Lemma setFrom_In (seen xs : list string) (t : string) :
  In t (setFrom seen xs) <-> In t xs /\ ~ In t seen.
Proof.
  revert seen. induction xs as [|x rest IH]; intros seen; simpl; [tauto|].
  destruct (existsb (String.eqb x) seen) eqn:Hseen.
  - apply existsb_eqb_In in Hseen. rewrite IH.
    split; [tauto|]. intros [[->|Hin] Hno]; [contradiction | tauto].
  - assert (Hx : ~ In x seen).
    { intros Hin. apply existsb_eqb_In in Hin. congruence. }
    simpl. rewrite IH. simpl.
    destruct (string_dec x t) as [->|Hne].
    + split; [intros _; split; [left; reflexivity | exact Hx] | intros _; left; reflexivity].
    + split.
      * intros [Heq|[Hin Hno]]; [contradiction|].
        split; [right; exact Hin | intros Hs; apply Hno; right; exact Hs].
      * intros [[Heq|Hin] Hno]; [contradiction|].
        right. split; [exact Hin | intros [Heq|Hs]; contradiction].
Qed.

Lemma setFrom_NoDup (seen xs : list string) : List.NoDup (setFrom seen xs).
Proof.
  revert seen. induction xs as [|x rest IH]; intros seen; simpl; [constructor|].
  destruct (existsb (String.eqb x) seen); [apply IH|].
  constructor; [|apply IH].
  rewrite setFrom_In. simpl. tauto.
Qed.

(** X9.  The options of the type filter are "all" followed by the types
    of the records, each type once: a string is offered after "all"
    exactly when some record has it as its type.  (A record whose type
    is "all" puts a second "all" among the options.) *)
Theorem documentTypes_options (documents : list Document) :
  exists types,
    documentTypes documents = "all" :: types /\
    List.NoDup types /\
    forall t, In t types <-> exists d, In d documents /\ doc_type d = t.
Proof.
  exists (setFrom [] (map doc_type documents)).
  split; [reflexivity|]. split; [apply setFrom_NoDup|].
  intros t. rewrite setFrom_In, in_map_iff. simpl. split.
  - intros [[d [Ht Hd]] _]. exists d. split; assumption.
  - intros [d [Hd Ht]]. split; [exists d; split; assumption | intros []].
Qed.

Example documentTypes_mock :
  documentTypes DocumentContext.mockDocuments = ["all"; "pdf"; "image"].
Proof. reflexivity. Qed.

Section Rows.
Context `{platform : JS.Platform}.

(** A row is a record of the collection that passes the search and the
    type filter, whatever the sort key and the dates are. *)
Lemma rows_In (documents : list Document) (st : State) (d : Document) :
  In d (filteredDocuments documents st) <->
  In d documents /\ matchesSearch (searchTerm st) d = true /\
  matchesType (filterType st) d = true.
Proof.
  pose proof (DocumentListFacts.filteredDocuments_perm documents st) as Hperm.
  rewrite <- andb_true_iff.
  rewrite <- (filter_In (fun doc => matchesSearch (searchTerm st) doc &&
                                    matchesType (filterType st) doc)).
  split; intros Hd.
  - apply (Permutation_in _ Hperm). exact Hd.
  - apply (Permutation_in _ (Permutation_sym Hperm)). exact Hd.
Qed.

(** X10.  With the search box empty, every option of the type filter
    other than "all" lists at least one record, and only records of that
    type; this holds for every sort key and direction, and whatever the
    upload dates are. *)
Theorem every_option_lists_a_record
    (documents : list Document) (t : string) (key : SortKey) (order : SortOrder) :
  In t (documentTypes documents) ->
  t <> "all" ->
  let shown := filteredDocuments documents
                 {| searchTerm := ""; sortBy := key; sortOrder := order; filterType := t |} in
  (exists d, In d shown) /\
  (forall d, In d shown <-> In d documents /\ doc_type d = t).
Proof.
  intros Ht Hall shown.
  assert (Hrows : forall d, In d shown <-> In d documents /\ doc_type d = t).
  { intros d. subst shown. rewrite rows_In. simpl.
    assert (Hsearch : matchesSearch "" d = true).
    { unfold matchesSearch, includesLower.
      rewrite JS.toLowerCase_empty, JSFacts.includes_empty. reflexivity. }
    rewrite Hsearch, DocumentListFacts.matchesType_spec. tauto. }
  split; [|exact Hrows].
  destruct Ht as [Ht|Ht]; [congruence|].
  apply setFrom_In in Ht as [Ht _]. apply in_map_iff in Ht as [d [Hd Hin]].
  exists d. apply Hrows. split; assumption.
Qed.

(** X11.  A click on a column never changes which records are shown:
    the rows after [handleSort] are the rows before it in another
    order. *)
Theorem handleSort_keeps_rows
    (field : SortKey) (documents : list Document) (st : State) :
  Permutation (filteredDocuments documents (handleSort field st))
              (filteredDocuments documents st).
Proof.
  rewrite !DocumentListFacts.filteredDocuments_perm.
  unfold handleSort. destruct (SortKey_eqb (sortBy st) field); reflexivity.
Qed.

(** X12.  With the search box empty and the filter on "all" the list
    shows the whole collection: the rows are the documents in some
    order, so the header reads "n of n documents". *)
Theorem default_view_shows_all
    (documents : list Document) (key : SortKey) (order : SortOrder) :
  let shown := filteredDocuments documents
                 {| searchTerm := ""; sortBy := key; sortOrder := order;
                    filterType := "all" |} in
  Permutation shown documents /\ length shown = length documents.
Proof.
  intros shown.
  assert (Hperm : Permutation shown documents).
  { subst shown. rewrite DocumentListFacts.filteredDocuments_perm. simpl.
    assert (Hall : forall l : list Document,
               List.filter (fun doc => matchesSearch "" doc && matchesType "all" doc) l = l).
    { induction l as [|d l IH]; simpl; [reflexivity|].
      unfold matchesSearch at 1, includesLower.
      rewrite JS.toLowerCase_empty, JSFacts.includes_empty. simpl.
      rewrite IH. reflexivity. }
    rewrite Hall. reflexivity. }
  split; [exact Hperm | apply Permutation_length; exact Hperm].
Qed.

Lemma step_keeps_selectionListed (e : Event) (app : App) :
  selectionListed (store app) -> selectionListed (store (step e app)).
Proof.
  intros Hsel. destruct e as [term | type | field | i | i confirmed | | document]; simpl;
    try exact Hsel.
  - destruct (rows app !! i) as [doc|] eqn:Hi; [|exact Hsel].
    intros d Hd. simpl in Hd. injection Hd as <-. simpl.
    apply (rows_In _ (view app)).
    apply list_elem_of_In. eapply list_elem_of_lookup_2. exact Hi.
  - destruct (rows app !! i) as [doc|] eqn:Hi; [|exact Hsel].
    destruct confirmed; [|exact Hsel]. simpl.
    intros d Hd. simpl in Hd.
    destruct (DocumentContext.selectedIs _ _) eqn:Hsame; [discriminate|].
    apply list_elem_of_In, list_elem_of_filter. split.
    + apply (proj1 (DocumentStoreFacts.selectedIs_false _ _) Hsame). exact Hd.
    + apply list_elem_of_In, Hsel. exact Hd.
  - intros d Hd. discriminate.
  - intros d Hd. simpl in *. right. apply Hsel. exact Hd.
Qed.

(** X13.  Whatever is searched, filtered, sorted, previewed, deleted,
    closed or uploaded, the document under preview is always a record of
    the collection: a deleted record is never left selected. *)
Theorem run_keeps_selectionListed (es : list Event) (app : App) :
  selectionListed (store app) -> selectionListed (store (run es app)).
Proof.
  revert app. induction es as [|e es IH]; intros app Hsel; simpl.
  - exact Hsel.
  - apply IH, step_keeps_selectionListed, Hsel.
Qed.

End Rows.

(** The theorem on the mock data, under the example host: the first row
    is previewed, the list is searched, and the previewed row deleted. *)
Lemma run_keeps_selectionListed_witness :
  selectionListed DocumentContext.initialState /\
  selectionListed
    (store (run (platform := Latin1HostFacts.host)
              [Preview 0; Search "smith"; DeleteRow 0 true] initialApp)).
Proof.
  assert (Hinit : selectionListed DocumentContext.initialState).
  { intros d Hd. discriminate. }
  split; [exact Hinit|].
  apply (run_keeps_selectionListed (platform := Latin1HostFacts.host)).
  exact Hinit.
Defined.

(** The theorem on the mock data: the option "image" lists document 2. *)
Lemma every_option_lists_a_record_witness :
  In "image" (documentTypes DocumentContext.mockDocuments) /\
  exists d,
    In d (filteredDocuments (platform := Latin1HostFacts.host)
            DocumentContext.mockDocuments
            {| searchTerm := ""; sortBy := by_name; sortOrder := asc;
               filterType := "image" |}).
Proof.
  assert (Hin : In "image" (documentTypes DocumentContext.mockDocuments)).
  { right. right. left. reflexivity. }
  split; [exact Hin|].
  apply (every_option_lists_a_record (platform := Latin1HostFacts.host)
           DocumentContext.mockDocuments "image" by_name asc Hin).
  discriminate.
Defined.

End DocumentListRowsFacts.

(** ** The upload flow from selection to completion *)

Module DocumentUploadFlowFacts.
Import DocumentUpload DocumentUploadFlow.

Section Ticks.
Variables (env : Env) (metadata : Metadata) (uploadFile : UploadFile).

Lemma tickMap_app (l1 l2 : list UploadFile) (acc : DocumentContext.State * bool) :
  tickMap env metadata uploadFile (l1 ++ l2) acc =
  let '(l1', acc1) := tickMap env metadata uploadFile l1 acc in
  let '(l2', acc2) := tickMap env metadata uploadFile l2 acc1 in
  ((l1' ++ l2')%list, acc2).
Proof.
  revert acc. induction l1 as [|uf l1 IH]; intros acc; simpl.
  - destruct (tickMap env metadata uploadFile l2 acc). reflexivity.
  - destruct (tickEntry env metadata uploadFile uf acc) as [uf' acc'].
    rewrite IH.
    destruct (tickMap env metadata uploadFile l1 acc') as [l1' acc1].
    destruct (tickMap env metadata uploadFile l2 acc1) as [l2' acc2].
    reflexivity.
Qed.

(** Entries of other uploads are passed over. *)
Lemma tickMap_other (l : list UploadFile) (acc : DocumentContext.State * bool) :
  (forall x, In x l -> id x <> id uploadFile) ->
  tickMap env metadata uploadFile l acc = (l, acc).
Proof.
  revert acc. induction l as [|uf l IH]; intros acc Hother; simpl; [reflexivity|].
  unfold tickEntry.
  assert (Hne : String.eqb (id uf) (id uploadFile) = false).
  { apply String.eqb_neq, Hother. left. reflexivity. }
  rewrite Hne, IH; [reflexivity|]. intros x Hx. apply Hother. right. exact Hx.
Qed.

Lemma tickMap_cons (uf : UploadFile) (rest : list UploadFile)
    (acc : DocumentContext.State * bool) :
  tickMap env metadata uploadFile (uf :: rest) acc =
  let '(uf', acc') := tickEntry env metadata uploadFile uf acc in
  let '(rest', acc'') := tickMap env metadata uploadFile rest acc' in
  (uf' :: rest', acc'').
Proof. reflexivity. Qed.

(** One firing on the entry that has fired [j] times. *)
Lemma tickEntry_at (uf : UploadFile) (acc : DocumentContext.State * bool) (j : nat) :
  id uf = id uploadFile ->
  (j < 10)%nat ->
  tickEntry env metadata uploadFile (entryAfter j uf) acc =
  (entryAfter (S j) uf,
   if (10 <=? S j)%nat
   then (DocumentContext.addDocument (newDocument env metadata uploadFile) acc.1, false)
   else acc).
Proof.
  intros Hid Hj. unfold tickEntry, entryAfter. cbn [id progress file status].
  rewrite Hid, String.eqb_refl.
  assert (Hp : Z.min (10 * Z.of_nat j) 100 = 10 * Z.of_nat j) by lia.
  rewrite Hp.
  assert (Hold : (10 <=? j)%nat = false) by (apply Nat.leb_gt; lia).
  rewrite Hold.
  destruct (Nat.leb_spec 10 (S j)) as [Hlast|Hmore].
  - assert (Hfull : (Z.min (10 * Z.of_nat j + 10) 100 =? 100)%Z = true)
      by (apply Z.eqb_eq; lia).
    rewrite Hfull. f_equal. f_equal. lia.
  - assert (Hnot : (Z.min (10 * Z.of_nat j + 10) 100 =? 100)%Z = false)
      by (apply Z.eqb_neq; lia).
    rewrite Hnot. f_equal. f_equal. lia.
Qed.

Lemma tick_at (pre post : list UploadFile) (uf : UploadFile)
    (docs : DocumentContext.State) (run : bool) (j : nat) :
  id uf = id uploadFile ->
  (forall x, In x (pre ++ post) -> id x <> id uploadFile) ->
  (j < 10)%nat ->
  simulateUploadTick env metadata uploadFile
    {| uploadFiles := pre ++ entryAfter j uf :: post; store := docs; running := run |}
  = {| uploadFiles := pre ++ entryAfter (S j) uf :: post;
       store := if (10 <=? S j)%nat
                then DocumentContext.addDocument (newDocument env metadata uploadFile) docs
                else docs;
       running := if (10 <=? S j)%nat then false else run |}.
Proof.
  intros Hid Hother Hj. unfold simulateUploadTick. cbn [uploadFiles store running].
  rewrite tickMap_app.
  rewrite tickMap_other by (intros x Hx; apply Hother, in_or_app; left; exact Hx).
  rewrite tickMap_cons, tickEntry_at by assumption.
  rewrite tickMap_other by (intros x Hx; apply Hother, in_or_app; right; exact Hx).
  destruct (10 <=? S j)%nat; reflexivity.
Qed.

Lemma ticks_from (pre post : list UploadFile) (uf : UploadFile)
    (docs : DocumentContext.State) (n j : nat) :
  id uf = id uploadFile ->
  (forall x, In x (pre ++ post) -> id x <> id uploadFile) ->
  (j < 10)%nat ->
  let at_ k :=
    {| uploadFiles := pre ++ entryAfter k uf :: post;
       store := if (10 <=? k)%nat
                then DocumentContext.addDocument (newDocument env metadata uploadFile) docs
                else docs;
       running := (k <? 10)%nat |} in
  ticks env metadata uploadFile n (at_ j) = at_ (Nat.min (j + n) 10).
Proof.
  intros Hid Hother. revert j. induction n as [|n IH]; intros j Hj at_.
  - simpl. rewrite Nat.add_0_r, Nat.min_l by lia. reflexivity.
  - cbn [ticks]. subst at_. unfold fired. cbn [uploadFiles store running].
    rewrite (proj2 (Nat.leb_gt 10 j)) by lia.
    rewrite tick_at by assumption. cbn [running].
    destruct (Nat.leb_spec 10 (S j)) as [Hlast|Hmore].
    + assert (j = 9)%nat as -> by lia.
      rewrite Nat.min_r by lia. reflexivity.
    + specialize (IH (S j) ltac:(lia)). cbn zeta in IH.
      replace (j + S n)%nat with (S j + n)%nat by lia.
      rewrite <- IH. f_equal.
      rewrite (proj2 (Nat.leb_gt 10 (S j))) by lia.
      rewrite (proj2 (Nat.ltb_lt (S j) 10)) by lia. reflexivity.
Qed.

End Ticks.

(** X14.  An upload whose entry is the only one with its id and stands
    at progress 0 with its interval set: after [n] firings the entry is
    at [min(10 n, 100)], the other entries are as they were, and the
    store holds the documents it held; from the tenth firing on the
    entry is a success at 100, the interval is cleared, and the store
    holds exactly one new record, in front.  Firings beyond the tenth
    change nothing. *)
Theorem upload_completes_at_tenth_tick
    (env : Env) (metadata : Metadata) (uploadFile uf : UploadFile)
    (pre post : list UploadFile) (st : State) (n : nat) :
  uploadFiles st = (pre ++ uf :: post)%list ->
  id uf = id uploadFile ->
  progress uf = 0 ->
  (forall x, In x (pre ++ post) -> id x <> id uploadFile) ->
  running st = true ->
  let st' := ticks env metadata uploadFile n st in
  uploadFiles st' = (pre ++ entryAfter n uf :: post)%list /\
  DocumentContext.documents (store st') =
    (if (10 <=? n)%nat
     then newDocument env metadata uploadFile :: DocumentContext.documents (store st)
     else DocumentContext.documents (store st)) /\
  DocumentContext.selectedDocument (store st') = DocumentContext.selectedDocument (store st) /\
  running st' = (n <? 10)%nat.
Proof.
  intros Hfiles Hid Hzero Hother Hrun st'.
  destruct st as [files docs run]. simpl in Hfiles, Hrun. subst files run st'.
  cbn [store].
  pose proof (ticks_from env metadata uploadFile pre post uf docs n 0
                Hid Hother ltac:(lia)) as Hticks.
  cbn zeta in Hticks.
  assert (Hst : {| uploadFiles := pre ++ uf :: post; store := docs; running := true |}
                = {| uploadFiles := pre ++ entryAfter 0 uf :: post;
                     store := if (10 <=? 0)%nat
                              then DocumentContext.addDocument
                                     (newDocument env metadata uploadFile) docs
                              else docs;
                     running := (0 <? 10)%nat |}).
  { simpl. f_equal. f_equal. f_equal. unfold entryAfter. simpl.
    destruct uf as [f p s i]. simpl in *. subst p. reflexivity. }
  rewrite Hst, Hticks. simpl Nat.add. cbn [uploadFiles store running].
  assert (Hentry : entryAfter (Nat.min n 10) uf = entryAfter n uf).
  { unfold entryAfter. f_equal.
    - lia.
    - destruct (Nat.leb_spec 10 n) as [Hge|Hlt].
      + rewrite Nat.min_r by lia. reflexivity.
      + rewrite Nat.min_l by lia.
        rewrite (proj2 (Nat.leb_gt 10 n)) by lia. reflexivity. }
  rewrite Hentry.
  destruct (Nat.leb_spec 10 n) as [Hge|Hlt].
  - rewrite Nat.min_r by lia. simpl.
    rewrite (proj2 (Nat.ltb_ge n 10)) by lia. repeat split.
  - rewrite Nat.min_l by lia.
    rewrite (proj2 (Nat.leb_gt 10 n)) by lia.
    rewrite (proj2 (Nat.ltb_lt n 10)) by lia. repeat split.
Qed.

(** The theorem on one PDF selected over the mock store: three firings
    take it to 30, ten and more complete it with one new document. *)
Lemma upload_completes_at_tenth_tick_witness :
  let f := {| file_name := "agreement.pdf"; file_type := "application/pdf";
              file_size := 245000 |} in
  let st := handleFileSelect (Some [(f, "1762300000000-0.42")])
              (mounted DocumentContext.initialState) in
  let uf := {| file := f; progress := 0; status := uploading;
               id := "1762300000000-0.42" |} in
  let after n := ticks DocumentUploadNotions.browser DocumentUploadNotions.twoTags uf n st in
  map progress (uploadFiles (after 3%nat)) = [30] /\
  uploadFiles (after 12%nat) = [entryAfter 12 uf] /\
  length (DocumentContext.documents (store (after 12%nat))) = 5%nat /\
  running (after 12%nat) = false.
Proof.
  intros f st uf after.
  pose proof (fun n => upload_completes_at_tenth_tick
                DocumentUploadNotions.browser DocumentUploadNotions.twoTags uf uf [] [] st n
                eq_refl eq_refl eq_refl (fun x (H : In x []) => False_ind _ H) eq_refl)
    as Hn.
  cbn zeta in Hn.
  destruct (Hn 3%nat) as (H3 & _).
  destruct (Hn 12%nat) as (H12 & Hdocs & _ & Hrun).
  fold (after 3%nat) in H3. fold (after 12%nat) in H12, Hdocs, Hrun.
  split; [rewrite H3; reflexivity|].
  split; [exact H12|].
  split; [rewrite Hdocs; reflexivity | exact Hrun].
Defined.

(** What the flag says when an interval starts firing does not matter:
    the interval that fires is set. *)
Lemma ticks_own_interval
    (env : Env) (metadata : Metadata) (uploadFile : UploadFile) (n : nat) (st : State) :
  ticks env metadata uploadFile (S n) st = ticks env metadata uploadFile (S n) (fired st).
Proof. reflexivity. Qed.

(** Two uploads, the second selected when the first is complete, or
    both selected together: each reaches 100 under the firings of its
    own interval, and the store gets one record for each. *)
Example uploads_do_not_stop_each_other :
  let fa := {| file_name := "agreement.pdf"; file_type := "application/pdf";
               file_size := 245000 |} in
  let fb := {| file_name := "photo.png"; file_type := "image/png";
               file_size := 1200000 |} in
  let a := {| file := fa; progress := 0; status := uploading;
              id := "1762300000000-0.42" |} in
  let b := {| file := fb; progress := 0; status := uploading;
              id := "1762300009000-0.17" |} in
  let up u n st :=
    ticks DocumentUploadNotions.browser DocumentUploadNotions.twoTags u n st in
  let one_by_one :=
    up b 10%nat (handleFileSelect (Some [(fb, id b)])
      (up a 10%nat (handleFileSelect (Some [(fa, id a)])
        (mounted DocumentContext.initialState)))) in
  let together :=
    up b 10%nat (up a 10%nat
      (handleFileSelect (Some [(fa, id a); (fb, id b)])
        (mounted DocumentContext.initialState))) in
  map progress (uploadFiles one_by_one) = [100; 100] /\
  map status (uploadFiles one_by_one) = [success; success] /\
  map doc_name (DocumentContext.documents (store one_by_one))
  = ("photo.png" :: "agreement.pdf"
     :: map doc_name DocumentContext.mockDocuments)%list /\
  uploadFiles together = uploadFiles one_by_one /\
  store together = store one_by_one.
Proof. vm_compute. repeat split. Qed.

Section Frame.
Variables (env : Env) (metadata : Metadata) (uploadFile : UploadFile).

Lemma tickEntry_advanced (uf : UploadFile) (acc : DocumentContext.State * bool) :
  advanced uploadFile uf (tickEntry env metadata uploadFile uf acc).1.
Proof.
  unfold advanced, tickEntry.
  destruct (String.eqb_spec (id uf) (id uploadFile)) as [Heq|Hne].
  - destruct (Z.eqb_spec (Z.min (progress uf + 10) 100) 100) as [Hfull|Hnot]; simpl.
    + repeat split; first [tauto | lia | right; reflexivity].
    + repeat split; first [tauto | lia | left; reflexivity].
  - simpl. repeat split; first [tauto | lia | left; reflexivity].
Qed.

Lemma tickMap_advanced (prev : list UploadFile) (acc : DocumentContext.State * bool) :
  Forall2 (advanced uploadFile) prev (tickMap env metadata uploadFile prev acc).1.
Proof.
  revert acc. induction prev as [|uf rest IH]; intros acc; simpl; [constructor|].
  pose proof (tickEntry_advanced uf acc) as Hentry.
  destruct (tickEntry env metadata uploadFile uf acc) as [uf' acc'].
  specialize (IH acc').
  destruct (tickMap env metadata uploadFile rest acc') as [rest' acc''].
  constructor; assumption.
Qed.

(** X15.  One firing of an upload's interval goes through the tracking
    list entry by entry: the list keeps its length and order, every
    entry keeps its file and id, the entries of other uploads are not
    touched, a progress never goes down nor beyond 100, and a status
    changes to success or not at all. *)
Theorem tick_advances_entries (st : State) :
  Forall2 (advanced uploadFile) (uploadFiles st)
          (uploadFiles (simulateUploadTick env metadata uploadFile st)).
Proof.
  unfold simulateUploadTick.
  pose proof (tickMap_advanced (uploadFiles st) (store st, running st)) as Hall.
  destruct (tickMap env metadata uploadFile (uploadFiles st) (store st, running st))
    as [files [docs run]].
  exact Hall.
Qed.

Lemma tickMap_selected (prev : list UploadFile) (acc : DocumentContext.State * bool) :
  DocumentContext.selectedDocument (tickMap env metadata uploadFile prev acc).2.1
  = DocumentContext.selectedDocument acc.1.
Proof.
  revert acc. induction prev as [|uf rest IH]; intros acc; simpl; [reflexivity|].
  destruct (tickEntry env metadata uploadFile uf acc) as [uf' acc'] eqn:Entry.
  specialize (IH acc').
  destruct (tickMap env metadata uploadFile rest acc') as [rest' acc''].
  simpl in *. rewrite IH.
  unfold tickEntry in Entry.
  destruct (String.eqb (id uf) (id uploadFile)); [|injection Entry as _ <-; reflexivity].
  destruct (Z.min (progress uf + 10) 100 =? 100)%Z; injection Entry as _ <-; reflexivity.
Qed.

Lemma tick_selected (st : State) :
  DocumentContext.selectedDocument (store (simulateUploadTick env metadata uploadFile st))
  = DocumentContext.selectedDocument (store st).
Proof.
  unfold simulateUploadTick.
  pose proof (tickMap_selected (uploadFiles st) (store st, running st)) as Hsel.
  destruct (tickMap env metadata uploadFile (uploadFiles st) (store st, running st))
    as [files [docs run]].
  exact Hsel.
Qed.

Lemma tracked_advanced (before after : UploadFile) :
  tracked before ->
  after = (tickEntry env metadata uploadFile before (DocumentContext.initialState, true)).1 ->
  tracked after.
Proof.
  intros Hwf ->. unfold tickEntry.
  destruct (String.eqb (id before) (id uploadFile)); [|exact Hwf].
  destruct (Z.eqb_spec (Z.min (progress before + 10) 100) 100) as [Hfull|Hnot]; simpl.
  - right. split; reflexivity.
  - destruct Hwf as [[Hup [k [Hk Hp]]]|[Hs Hp]]; [|lia].
    left. simpl. split; [exact Hup|]. exists (k + 1). lia.
Qed.

Lemma tickEntry_fst (uf : UploadFile) (acc1 acc2 : DocumentContext.State * bool) :
  (tickEntry env metadata uploadFile uf acc1).1 = (tickEntry env metadata uploadFile uf acc2).1.
Proof.
  unfold tickEntry. destruct (String.eqb (id uf) (id uploadFile)); [|reflexivity].
  destruct (Z.min (progress uf + 10) 100 =? 100)%Z; reflexivity.
Qed.

Lemma tickMap_tracked (prev : list UploadFile) (acc : DocumentContext.State * bool) :
  List.Forall tracked prev ->
  List.Forall tracked (tickMap env metadata uploadFile prev acc).1.
Proof.
  revert acc. induction prev as [|uf rest IH]; intros acc Hall; simpl; [constructor|].
  apply Forall_cons_1 in Hall as [Huf Hrest].
  pose proof (tickEntry_fst uf acc (DocumentContext.initialState, true)) as Hfst.
  destruct (tickEntry env metadata uploadFile uf acc) as [uf' acc'].
  specialize (IH acc' Hrest).
  destruct (tickMap env metadata uploadFile rest acc') as [rest' acc''].
  simpl in *. constructor; [|exact IH].
  apply (tracked_advanced uf uf' Huf Hfst).
Qed.

Lemma tick_tracked (st : State) :
  List.Forall tracked (uploadFiles st) ->
  List.Forall tracked (uploadFiles (simulateUploadTick env metadata uploadFile st)).
Proof.
  intros Hall. unfold simulateUploadTick.
  pose proof (tickMap_tracked (uploadFiles st) (store st, running st) Hall) as Hnew.
  destruct (tickMap env metadata uploadFile (uploadFiles st) (store st, running st))
    as [files [docs run]].
  exact Hnew.
Qed.

End Frame.

Lemma step_tracked (e : Event) (st : State) :
  List.Forall tracked (uploadFiles st) -> List.Forall tracked (uploadFiles (step e st)).
Proof.
  intros Hall. destruct e as [files | env metadata uploadFile | i |]; simpl.
  - destruct files as [fs|]; [|exact Hall]. simpl.
    apply Forall_app. split; [exact Hall|].
    apply List.Forall_forall. intros uf Huf.
    apply in_map_iff in Huf as [[f i] [<- _]].
    left. split; [reflexivity|]. exists 0. simpl. lia.
  - apply tick_tracked. exact Hall.
  - unfold removeFile. simpl. rewrite List.Forall_forall in Hall |- *.
    intros uf Huf. apply filter_In in Huf as [Huf _]. apply Hall. exact Huf.
  - unfold clearCompleted. simpl. rewrite List.Forall_forall in Hall |- *.
    intros uf Huf. apply filter_In in Huf as [Huf _]. apply Hall. exact Huf.
Qed.

(** X16.  Whatever files are selected, whichever intervals fire, and
    whatever is removed or cleared, every tracked entry is uploading at
    one of 0, 10, ..., 90 or is a success at 100.  So an entry is shown
    complete exactly when its progress is 100, and no entry ever has the
    status error. *)
Theorem run_keeps_tracked (es : list Event) (st : State) :
  List.Forall tracked (uploadFiles st) ->
  List.Forall tracked (uploadFiles (run es st)) /\
  (forall uf, In uf (uploadFiles (run es st)) ->
     status uf <> error /\ (status uf = success <-> progress uf = 100)).
Proof.
  intros Hall.
  assert (Hrun : List.Forall tracked (uploadFiles (run es st))).
  { revert st Hall. induction es as [|e es IH]; intros st Hall; simpl; [exact Hall|].
    apply IH, step_tracked, Hall. }
  split; [exact Hrun|].
  intros uf Huf. rewrite List.Forall_forall in Hrun.
  destruct (Hrun uf Huf) as [[Hup [k [Hk Hp]]]|[Hs Hp]].
  - rewrite Hup. split; [discriminate|]. split; [discriminate | lia].
  - rewrite Hs. split; [discriminate|]. split; [intros _; exact Hp | reflexivity].
Qed.

Lemma step_store_grows (e : Event) (st : State) :
  exists added,
    DocumentContext.documents (store (step e st))
    = (added ++ DocumentContext.documents (store st))%list /\
    DocumentContext.selectedDocument (store (step e st))
    = DocumentContext.selectedDocument (store st).
Proof.
  destruct e as [files | env metadata uploadFile | i |]; simpl.
  - exists []. destruct files; split; reflexivity.
  - eexists. split; [apply DocumentUploadFacts.simulateUploadTick_documents|].
    apply tick_selected.
  - exists []. split; reflexivity.
  - exists []. split; reflexivity.
Qed.

(** X17.  The upload panel only ever adds to the store, in front: after
    any selections, firings, removals and clearings the documents are
    the ones there were, in their order, behind the new ones, and the
    selection is what it was.  Removing or clearing a tracking entry
    never takes its document back. *)
Theorem run_store_grows (es : list Event) (st : State) :
  exists added,
    DocumentContext.documents (store (run es st))
    = (added ++ DocumentContext.documents (store st))%list /\
    DocumentContext.selectedDocument (store (run es st))
    = DocumentContext.selectedDocument (store st).
Proof.
  revert st. induction es as [|e es IH]; intros st; simpl.
  - exists []. split; reflexivity.
  - destruct (IH (step e st)) as [added2 [Hdocs2 Hsel2]].
    destruct (step_store_grows e st) as [added1 [Hdocs1 Hsel1]].
    exists (added2 ++ added1)%list. split.
    + rewrite Hdocs2, Hdocs1, app_assoc. reflexivity.
    + rewrite Hsel2, Hsel1. reflexivity.
Qed.

(** The theorem from the panel mounted over the mock store. *)
Lemma run_keeps_tracked_witness :
  let f := {| file_name := "photo.png"; file_type := "image/png"; file_size := 1024000 |} in
  let uf := {| file := f; progress := 0; status := uploading; id := "1762300000001-0.7" |} in
  let tick := Tick DocumentUploadNotions.browser DocumentUploadNotions.twoTags uf in
  List.Forall tracked
    (uploadFiles (run [Select (Some [(f, "1762300000001-0.7")]); tick; tick; ClearCompleted]
                      (mounted DocumentContext.initialState))).
Proof.
  intros f uf tick.
  apply (run_keeps_tracked _ (mounted DocumentContext.initialState)).
  constructor.
Defined.

End DocumentUploadFlowFacts.

(** ** The preview: pages, buttons and the number shown *)

Module DocumentPreviewPagesFacts.
Import DocumentPreview DocumentPreviewNotions DocumentPreviewPages.

Lemma step_pageShown (e : Event) (st : State) : pageShown st -> pageShown (step e st).
Proof.
  unfold pageShown. destruct st as [np page sc err]. simpl. intros [Hlow Hhigh].
  destruct e as [n | | | | | |]; simpl; try (split; assumption).
  - split; lia.
  - unfold goToNextPage. simpl. destruct np as [n|]; [|simpl; tauto].
    destruct (Z.eqb_spec n 0) as [Hz|Hnz]; simpl; [tauto|].
    destruct (Z.ltb_spec page n); simpl; [lia | tauto].
  - unfold goToPreviousPage. simpl.
    destruct (Z.ltb_spec 1 page); simpl; [|tauto].
    destruct np; lia.
  - destruct np; lia.
Qed.

(** X18.  From the start, through any loads, failures, page turns, zoom
    clicks and closings, the page number is at least 1, stays 1 until a
    document is loaded, and once a document with [n >= 1] pages is
    loaded is at most [n]. *)
Theorem run_keeps_pageShown (es : list Event) :
  let st := run es initialState in
  1 <= pageNumber st /\
  match numPages st with
  | Some n => pageNumber st <= Z.max 1 n
  | None => pageNumber st = 1
  end.
Proof.
  assert (Hall : forall st, pageShown st -> pageShown (run es st)).
  { induction es as [|e es IH]; intros st Hst; simpl; [exact Hst|].
    apply IH, step_pageShown, Hst. }
  apply Hall. unfold pageShown. simpl. lia.
Qed.

(** X19.  Turning the page forward and back, or back and forward, gives
    the state back whenever the first turn is possible: forward from a
    page below the page count, backward from a page above 1 that is
    within the page count. *)
Theorem page_turns_undo (st : State) (n : Z) :
  numPages st = Some n ->
  (pageNumber st < n -> 1 <= pageNumber st ->
   goToPreviousPage (goToNextPage st) = st) /\
  (1 < pageNumber st -> pageNumber st <= n ->
   goToNextPage (goToPreviousPage st) = st).
Proof.
  intros Hn. destruct st as [np page sc err]. simpl in Hn. subst np. split.
  - intros Hlt Hlow. unfold goToNextPage. simpl.
    assert (Hnz : (n =? 0)%Z = false) by (apply Z.eqb_neq; simpl in *; lia).
    rewrite Hnz. simpl in *.
    rewrite (proj2 (Z.ltb_lt page n)) by lia. simpl.
    unfold goToPreviousPage. simpl.
    rewrite (proj2 (Z.ltb_lt 1 (page + 1))) by lia.
    f_equal. lia.
  - intros Hlow Hle. unfold goToPreviousPage. simpl in *.
    rewrite (proj2 (Z.ltb_lt 1 page)) by lia.
    unfold goToNextPage. simpl.
    assert (Hnz : (n =? 0)%Z = false) by (apply Z.eqb_neq; lia).
    rewrite Hnz. simpl.
    rewrite (proj2 (Z.ltb_lt (page - 1) n)) by lia.
    f_equal. lia.
Qed.

(** The theorem on page 2 of a document of 5 pages. *)
Lemma page_turns_undo_witness :
  let st := {| numPages := Some 5; pageNumber := 2; scale := 1.0%float;
               pdfError := false |} in
  goToPreviousPage (goToNextPage st) = st /\
  goToNextPage (goToPreviousPage st) = st.
Proof.
  intros st.
  destruct (page_turns_undo st 5 eq_refl) as [Hforward Hback].
  split; [apply Hforward | apply Hback]; simpl; lia.
Defined.

Local Open Scope float_scope.

Lemma scales_buttonsTell : List.Forall (fun s => buttonsTell (atScale s)) scales.
Proof.
  unfold scales.
  repeat (apply List.Forall_cons; [split; vm_compute; reflexivity|]).
  apply List.Forall_nil.
Qed.

Lemma scales_percentSteps : List.Forall (fun s => percentSteps (atScale s)) scales.
Proof.
  unfold scales.
  repeat (apply List.Forall_cons;
          [ eexists; split; [vm_compute; reflexivity|];
            split; [lia|]; split; [reflexivity|];
            split; vm_compute; reflexivity
          | ]).
  apply List.Forall_nil.
Qed.

Lemma scale_step (e : Event) (st : State) :
  scale (step e st) =
  match e with
  | ZoomedIn => zoomIn (scale st)
  | ZoomedOut => zoomOut (scale st)
  | Closed => scale initialState
  | _ => scale st
  end.
Proof.
  destruct e; try reflexivity.
  - unfold step, goToNextPage. destruct (numPages st) as [n|]; [|reflexivity].
    destruct (negb (n =? 0)%Z && (pageNumber st <? n)%Z); reflexivity.
  - unfold step, goToPreviousPage. destruct (1 <? pageNumber st)%Z; reflexivity.
Qed.

Lemma step_in_scales (e : Event) (st : State) :
  In (scale st) scales -> In (scale (step e st)) scales.
Proof.
  intros Hst. rewrite scale_step.
  pose proof DocumentPreviewFacts.scales_stepsWithin as Hall.
  rewrite List.Forall_forall in Hall.
  destruct (Hall _ Hst) as (_ & _ & _ & _ & Hin & Hout).
  destruct e; try assumption.
  apply DocumentPreviewFacts.initial_in_scales.
Qed.

Lemma events_in_scales (es : list Event) (st : State) :
  In (scale st) scales -> In (scale (run es st)) scales.
Proof.
  revert st. induction es as [|e es IH]; intros st Hst; simpl; [exact Hst|].
  apply IH, step_in_scales, Hst.
Qed.

Lemma buttonsTell_scale (st : State) (s : float) :
  scale st = s -> buttonsTell (atScale s) -> buttonsTell st.
Proof.
  intros <-. unfold buttonsTell, zoomInDisabled, zoomOutDisabled. simpl. tauto.
Qed.

Lemma percentSteps_scale (st : State) (s : float) :
  scale st = s -> percentSteps (atScale s) -> percentSteps st.
Proof.
  intros <-. unfold percentSteps, shownPercent. simpl. tauto.
Qed.

(** X20.  After any sequence of events of the preview, the zoom-in
    button is disabled exactly when a click on it would leave the zoom
    level unchanged, and a click on the enabled button raises the level;
    likewise the zoom-out button and lowering. *)
Theorem zoom_buttons_tell (es : list Event) :
  let st := run es initialState in
  (if zoomInDisabled st then scale (handleZoomIn st) = scale st
   else (scale st <? scale (handleZoomIn st)) = true) /\
  (if zoomOutDisabled st then scale (handleZoomOut st) = scale st
   else (scale (handleZoomOut st) <? scale st) = true).
Proof.
  intros st.
  pose proof (events_in_scales es initialState DocumentPreviewFacts.initial_in_scales) as Hin.
  pose proof scales_buttonsTell as Hall. rewrite List.Forall_forall in Hall.
  apply (buttonsTell_scale st (scale st) eq_refl). apply Hall. exact Hin.
Qed.

(** X21.  After any sequence of events of the preview the number shown
    before the per cent sign is a multiple of ten from 50 to 300, a
    zoom-in click adds twenty to it but stops at 300, and a zoom-out
    click takes twenty but stops at 50: the rounding of the binary zoom
    level never shows. *)
Theorem shown_percent_steps (es : list Event) :
  let st := run es initialState in
  exists p,
    shownPercent st = Some p /\
    (50 <= p <= 300)%Z /\ (p mod 10 = 0)%Z /\
    shownPercent (handleZoomIn st) = Some (Z.min (p + 20) 300) /\
    shownPercent (handleZoomOut st) = Some (Z.max (p - 20) 50).
Proof.
  intros st.
  pose proof (events_in_scales es initialState DocumentPreviewFacts.initial_in_scales) as Hin.
  pose proof scales_percentSteps as Hall. rewrite List.Forall_forall in Hall.
  apply (percentSteps_scale st (scale st) eq_refl). apply Hall. exact Hin.
Qed.

End DocumentPreviewPagesFacts.

(** ** The editor: the value handed to the time inputs *)

Module DateTimeLocalFacts.
Import DateTimeLocal.

Lemma below_in_range (lo len n : Z) :
  0 <= lo -> lo <= n < lo + len ->
  In n (map Z.of_nat (seq (Z.to_nat lo) (Z.to_nat len))).
Proof.
  intros Hlo Hn. apply in_map_iff. exists (Z.to_nat n).
  split; [lia|]. apply in_seq. lia.
Qed.

Lemma padded_twoDigits (n : Z) :
  0 <= n <= 99 -> twoDigits n (padStart2 (pretty n)) = true.
Proof.
  intros Hn.
  assert (Hall : forallb (fun n => twoDigits n (padStart2 (pretty n)))
                         (map Z.of_nat (seq (Z.to_nat 0) (Z.to_nat 100))) = true)
    by (vm_compute; reflexivity).
  rewrite forallb_forall in Hall. apply Hall.
  apply below_in_range; lia.
Qed.

Lemma year_fourDigits (n : Z) :
  1000 <= n <= 9999 -> fourDigits n (pretty n) = true.
Proof.
  intros Hn.
  assert (Hall : forallb (fun n => fourDigits n (pretty n))
                         (map Z.of_nat (seq (Z.to_nat 1000) (Z.to_nat 9000))) = true)
    by (vm_compute; reflexivity).
  rewrite forallb_forall in Hall. apply Hall.
  apply below_in_range; lia.
Qed.

Lemma twoDigits_shape (n : Z) (s : string) :
  twoDigits n s = true ->
  exists a b, s = String a (String b "") /\ Latin1Host.digits [a; b] 0 = Some n.
Proof.
  unfold twoDigits. destruct s as [|a [|b [|c s]]]; cbn [list_ascii_of_string];
    try (intros Hf; discriminate Hf).
  destruct (Latin1Host.digits [a; b] 0) as [v|] eqn:Hv; [|intros Hf; discriminate Hf].
  intros Heq. apply Z.eqb_eq in Heq. subst v.
  exists a, b. split; [reflexivity | exact Hv].
Qed.

Lemma fourDigits_shape (n : Z) (s : string) :
  fourDigits n s = true ->
  exists a b c d,
    s = String a (String b (String c (String d ""))) /\
    Latin1Host.digits [a; b; c; d] 0 = Some n.
Proof.
  unfold fourDigits. destruct s as [|a [|b [|c [|d [|e s]]]]]; cbn [list_ascii_of_string];
    try (intros Hf; discriminate Hf).
  destruct (Latin1Host.digits [a; b; c; d] 0) as [v|] eqn:Hv; [|intros Hf; discriminate Hf].
  intros Heq. apply Z.eqb_eq in Heq. subst v.
  exists a, b, c, d. split; [reflexivity | exact Hv].
Qed.

(** X22.  For a valid date whose local year has four digits, the value
    handed to a time input has the form [YYYY-MM-DDTHH:mm]: sixteen
    characters, the separators in place, and the digit groups reading
    back as the year, the month counted from 1, the day, the hours and
    the minutes. *)
Theorem formatDateTimeLocal_shape (f : LocalFields) :
  1000 <= getFullYear f <= 9999 ->
  0 <= getMonth f <= 11 ->
  1 <= getDate f <= 31 ->
  0 <= getHours f <= 23 ->
  0 <= getMinutes f <= 59 ->
  exists y1 y2 y3 y4 m1 m2 d1 d2 h1 h2 n1 n2,
    list_ascii_of_string (formatDateTimeLocal (Some f)) =
      [y1; y2; y3; y4; "-"; m1; m2; "-"; d1; d2; "T"; h1; h2; ":"; n1; n2]%char /\
    Latin1Host.digits [y1; y2; y3; y4] 0 = Some (getFullYear f) /\
    Latin1Host.digits [m1; m2] 0 = Some (getMonth f + 1) /\
    Latin1Host.digits [d1; d2] 0 = Some (getDate f) /\
    Latin1Host.digits [h1; h2] 0 = Some (getHours f) /\
    Latin1Host.digits [n1; n2] 0 = Some (getMinutes f).
Proof.
  intros Hy Hm Hd Hh Hn.
  destruct (fourDigits_shape _ _ (year_fourDigits (getFullYear f) Hy))
    as (y1 & y2 & y3 & y4 & Hys & Hyv).
  destruct (twoDigits_shape _ _ (padded_twoDigits (getMonth f + 1) ltac:(lia)))
    as (m1 & m2 & Hms & Hmv).
  destruct (twoDigits_shape _ _ (padded_twoDigits (getDate f) ltac:(lia)))
    as (d1 & d2 & Hds & Hdv).
  destruct (twoDigits_shape _ _ (padded_twoDigits (getHours f) ltac:(lia)))
    as (h1 & h2 & Hhs & Hhv).
  destruct (twoDigits_shape _ _ (padded_twoDigits (getMinutes f) ltac:(lia)))
    as (n1 & n2 & Hns & Hnv).
  exists y1, y2, y3, y4, m1, m2, d1, d2, h1, h2, n1, n2.
  split; [|repeat split; assumption].
  unfold formatDateTimeLocal, String_of. cbn [option_map].
  rewrite Hys, Hms, Hds, Hhs, Hns. reflexivity.
Qed.

(** The theorem on 5 November 2025, 10:00, with the two edges beside it:
    an Invalid Date, and a year of three digits, which is not padded. *)
Lemma formatDateTimeLocal_shape_witness :
  formatDateTimeLocal (Some (mkLocalFields 2025 10 5 10 0)) = "2025-11-05T10:00" /\
  formatDateTimeLocal None = "NaN-NaN-NaNTNaN:NaN" /\
  formatDateTimeLocal (Some (mkLocalFields 202 0 1 0 0)) = "202-01-01T00:00".
Proof.
  split; [|split; vm_compute; reflexivity].
  destruct (formatDateTimeLocal_shape (mkLocalFields 2025 10 5 10 0))
    as (y1 & y2 & y3 & y4 & m1 & m2 & d1 & d2 & h1 & h2 & n1 & n2 & Hs & _);
    simpl; try lia.
  vm_compute. reflexivity.
Defined.

End DateTimeLocalFacts.
